(** * pycoder: the agent session orchestrator ([pyfiles/agents/agent.py])

    A shallow embedding of the [Agent] class of [pyfiles.agents.agent]:
    the tag separator [_separate_ai_messages], the mode resolver
    [_update_current_state], the response stream assembler
    [_astream_response], the persistence write [_update_thread_history]
    and the entry point [aget_agent_response].

    Conventions.
    - A Python [str] is a [string]; every [ascii] stands for one code point
      below 256, so the development speaks about texts in that range.
    - A value produced by [json.loads] is a [jval]; a Python [dict] is a
      [gmap string jval] (key order is irrelevant to every operation used).
    - Exceptions are values of [exn]; fallible code returns [result].
    - An asynchronous generator is modelled by the list of the values it
      yields (each one the value of the yielded object at that moment)
      together with its outcome. *)

From Stdlib Require Import ZArith Ascii String List Lia Bool.
From stdpp Require Import base option gmap strings list.

#[local] Arguments String.append !_ _ / : simpl nomatch.

(** ** Python strings *)

Module PyStr.

(** [str.isspace] on one code point below 256; [re]'s [\s] uses the same
    table for [str] patterns. *)
Definition isspace (c : ascii) : bool :=
  let n := nat_of_ascii c in
  (((9 <=? n) && (n <=? 13)) || ((28 <=? n) && (n <=? 32))
   || (n =? 133) || (n =? 160))%nat.

Definition is_empty (s : string) : bool :=
  match s with EmptyString => true | String _ _ => false end.

Fixpoint lstrip (s : string) : string :=
  match s with
  | EmptyString => EmptyString
  | String c s' => if isspace c then lstrip s' else s
  end.

Fixpoint rstrip (s : string) : string :=
  match s with
  | EmptyString => EmptyString
  | String c s' =>
      let r := rstrip s' in
      if isspace c && is_empty r then EmptyString else String c r
  end.

(** [s.strip()] *)
Definition strip (s : string) : string := rstrip (lstrip s).

Fixpoint drop (n : nat) (s : string) : string :=
  match n, s with
  | O, _ => s
  | S n', EmptyString => EmptyString
  | S n', String _ s' => drop n' s'
  end.

(** [s.startswith(pat)] *)
Fixpoint startswith (pat s : string) : bool :=
  match pat, s with
  | EmptyString, _ => true
  | String _ _, EmptyString => false
  | String x pat', String y s' => Ascii.eqb x y && startswith pat' s'
  end.

(** [partition pat s]: the text before and the text after the first
    (leftmost) occurrence of [pat] in [s], if there is one. For a
    literal pattern, [re.search(pat, s)] finds that occurrence:
    [m.start()] is the length of the first component and [s[m.end():]]
    is the second. *)
Fixpoint partition (pat s : string) : option (string * string) :=
  if startswith pat s then Some (EmptyString, drop (String.length pat) s)
  else match s with
       | EmptyString => None
       | String c s' =>
           match partition pat s' with
           | Some (a, b) => Some (String c a, b)
           | None => None
           end
       end.

(** [s.split('\n', 1)]: one or two pieces. *)
Definition newline : string := String (ascii_of_nat 10) EmptyString.

Definition split_newline_1 (s : string) : list string :=
  match partition newline s with
  | Some (a, b) => [a; b]
  | None => [s]
  end.

End PyStr.

(** ** Exceptions and results *)

Inductive exn : Type :=
| ValueError (msg : string)
| KeyError (key : string)
| TypeError (msg : string)
| JSONDecodeError (doc : string)
| IndexError (msg : string)
| EngineError (msg : string).

Inductive result (A : Type) : Type :=
| Ok (a : A)
| Raise (e : exn).
Arguments Ok {A} a.
Arguments Raise {A} e.

(** ** The tag separator *)

Module Tags.
Import PyStr.

Definition open_tag : string := "<think>".
Definition close_tag : string := "</think>".

(** [re.search(r'<think>(.*?)</think>', text, flags=DOTALL)].
    The engine tries start positions from the left, so the match starts
    at the first [<think>]; the lazy [.*?] under DOTALL then stops at the
    first [</think>] that follows. When the text after the first
    [<think>] holds no [</think>], no later start can match either.
    The result is [(before, group(1), after)]. *)
Definition search_closed (text : string) : option (string * string * string) :=
  match partition open_tag text with
  | None => None
  | Some (before, rest) =>
      match partition close_tag rest with
      | None => None
      | Some (inner, after) => Some (before, inner, after)
      end
  end.

(** [re.sub(r'\s*<think>.*?</think>\s*', '', text, flags=DOTALL)].
    A match needs a run of white space that ends exactly at a [<think>]
    which has a [</think>] after it; the leftmost such start is the
    beginning of the white space that precedes the first closed block,
    and the greedy trailing [\s*] takes all the white space after the
    block. The scan resumes behind the match. [fuel] bounds the number
    of blocks removed. *)
Fixpoint sub_closed (fuel : nat) (text : string) : string :=
  match fuel with
  | O => text
  | S fuel' =>
      match search_closed text with
      | None => text
      | Some (before, _, after) =>
          rstrip before +:+ sub_closed fuel' (lstrip after)
      end
  end.

Definition sub_think (text : string) : string :=
  sub_closed (String.length text) text.

(** [Agent._separate_ai_messages]; [None] is Python's [None]. The text of
    the error message is held in its UTF-8 bytes. *)
Definition _separate_ai_messages (text : option string) : result (string * string) :=
  match text with
  | None => Raise (ValueError "❌ Argument `text` should not be None.")
  | Some text =>
      let _match := search_closed text in
      let inside_tags :=
        match _match with
        | Some (_, g1, _) => strip g1
        | None => EmptyString
        end in
      match _match with
      | None =>
          match partition open_tag text with
          | Some (_, tail) =>
              let inside_content := strip tail in
              match split_newline_1 inside_content with
              | [l0; l1] => Ok (strip l0, strip l1)
              | _ => Ok (EmptyString, strip inside_content)
              end
          | None => Ok (EmptyString, text)
          end
      | Some _ =>
          let outside_tags := sub_think text in
          Ok (inside_tags, strip outside_tags)
      end
  end.

(** The separator on a string that is there. *)
Definition separate (text : string) : result (string * string) :=
  _separate_ai_messages (Some text).

End Tags.

(** ** JSON values and messages *)

(** What [json.loads] returns (numbers are restricted to integers). *)
#[warnings="-register-all"] Inductive jval : Type :=
| JNull
| JBool (b : bool)
| JNum (n : Z)
| JStr (s : string)
| JList (l : list jval)
| JDict (d : gmap string jval).

(** [d.get(key)]: [None] (JSON [null]) when the key is absent. *)
Definition dict_get (d : gmap string jval) (key : string) : jval :=
  default JNull (d !! key).

(** [v == s] for a string literal [s]. *)
Definition eq_str (v : jval) (s : string) : bool :=
  match v with
  | JStr s' => String.eqb s' s
  | _ => false
  end.

(** The [content] of a langchain message: a [str] or a list of blocks. *)
Inductive content : Type :=
| CStr (s : string)
| CList (l : list jval).

Definition content_json (c : content) : jval :=
  match c with
  | CStr s => JStr s
  | CList l => JList l
  end.

(** [langchain_core.messages]: the three kinds the agent engine emits. The
    classes' own validation of constructor arguments is not part of the
    embedded code. *)
Inductive BaseMessage : Type :=
| HumanMessage (c : content) (response_metadata : jval)
| AIMessage (c : content) (response_metadata : jval)
| ToolMessage (name : option string) (c : content).

(** [type(msg)] *)
Inductive msg_type : Type := THumanMessage | TAIMessage | TToolMessage.

Definition type_of (m : BaseMessage) : msg_type :=
  match m with
  | HumanMessage _ _ => THumanMessage
  | AIMessage _ _ => TAIMessage
  | ToolMessage _ _ => TToolMessage
  end.

Definition msg_content (m : BaseMessage) : content :=
  match m with
  | HumanMessage c _ | AIMessage c _ | ToolMessage _ c => c
  end.

Definition is_human (m : BaseMessage) : bool :=
  match m with HumanMessage _ _ => true | _ => false end.

(** [gradio.EditData]: [index] is an [int] or a pair of them. *)
Inductive edit_index : Type :=
| IndexInt (i : Z)
| IndexPair (row col : Z).

Record EditData : Type := { index : edit_index; value : string }.

(** ** The stores *)

(** The text of a document of the threads group: the serialisation of a
    JSON array ([Threads.create] writes ['[]'], [_update_thread_history]
    writes [dumps] of a list), or a text that [json.loads] rejects. A
    text that is JSON without being an array (a number, [null], a
    string, an object) has no representation here: the program never
    writes one, and what [list(reversed(...))] does with it is outside
    this development. *)
Inductive page : Type :=
| JsonArray (l : list jval)
| NotJson (raw : string).

Definition loads (p : page) : result (list jval) :=
  match p with
  | JsonArray l => Ok l
  | NotJson raw => Raise (JSONDecodeError raw)
  end.

Definition dumps (l : list jval) : page := JsonArray l.

(** A row of the SQLite [documents] table, with the two metadata keys the
    orchestrator uses. *)
Record Document : Type :=
  { page_content : page; md_source : string; md_group : string }.

(** One step of [agent.astream(..., stream_mode="values")]: the value under
    the key ["messages"], or [None] when the step has no such key. *)
Definition step : Type := option (list BaseMessage).

(** What one call of [agent.astream] does: the steps it yields, the
    exception it raises after them (if any), and the checkpointer's
    content when it stops. *)
Record Stream : Type :=
  { steps : list step;
    raised : option exn;
    memory_after : gmap string (list BaseMessage) }.

(** The parts of the program's environment that live outside the
    repository. *)
Class Collaborators : Type :=
  { (** [str(v)] for a value that is not a [str] *)
    py_repr : jval -> string;
    (** [hash((type, content))] for a [str] content; Python's value is
        a machine integer, and every statement holds for any function *)
    py_hash : msg_type -> string -> Z;
    (** the reducer [agent.update_state] applies to the ["messages"]
        channel: the previous channel value (if any), the update, the
        new value *)
    add_messages : option (list BaseMessage) -> list BaseMessage -> list BaseMessage;
    (** the agent engine *)
    astream : gmap string (list BaseMessage) -> string -> list BaseMessage -> Stream }.

(** The persisted store (SQLite, by document id) and the working state
    ([MemorySaver], the ["messages"] channel by thread id). *)
Record World : Type :=
  { sqlite_db : gmap string Document;
    checkpointer : gmap string (list BaseMessage) }.

(** A Python [for] loop whose body may raise: the state reached and the
    exception that ended the loop, if one did. *)
Fixpoint for_each {A S : Type} (body : S -> A -> S * option exn)
    (s : S) (l : list A) : S * option exn :=
  match l with
  | [] => (s, None)
  | x :: l' =>
      match body s x with
      | (s', None) => for_each body s' l'
      | (s', Some e) => (s', Some e)
      end
  end.

(** [l[:stop]] for an [int] stop. *)
Definition slice_to {A : Type} (l : list A) (stop : Z) : list A :=
  if (0 <=? stop)%Z then take (Z.to_nat stop) l
  else take (Z.to_nat (Z.of_nat (length l) + stop)) l.

(** ** The agent *)

Section Agent.
Context {env : Collaborators}.
(** [self.codebase.codebase], the name of the selected codebase *)
Variable codebase : string.

(** [str(v)] *)
Definition py_str (v : jval) : string :=
  match v with
  | JStr s => s
  | _ => py_repr v
  end.

Definition str_content (c : content) : string := py_str (content_json c).

(** [Threads.load_all_from_sqlite]: the documents whose [group] metadata
    is [f"{codebase}_{load_type}"], by id. *)
Definition load_all_from_sqlite (w : World) (load_type : string)
  : gmap string Document :=
  let group := codebase +:+ "_" +:+ load_type in
  filter (fun kv => md_group (snd kv) = group) (sqlite_db w).

(** [Agent._get_checkpoint_state]: the checkpoint of the thread, if the
    checkpointer holds one. *)
Definition _get_checkpoint_state (w : World) (thread_id : string)
  : option (list BaseMessage) :=
  checkpointer w !! thread_id.

(** [agent.update_state(config, {"messages": msgs})] *)
Definition update_state (w : World) (thread_id : string)
    (msgs : list BaseMessage) : World :=
  {| sqlite_db := sqlite_db w;
     checkpointer :=
       <[thread_id := add_messages (checkpointer w !! thread_id) msgs]>
         (checkpointer w) |}.

(** *** The mode resolver *)

(** The body of the standardising loop, without the counter. An entry
    that [json.loads] produced is never an instance of [HumanMessage] or
    [AIMessage], so the second [isinstance] branch adds nothing here: a
    dict with another role and a value that is not a dict are skipped.
    The message classes check their arguments themselves (a metadata
    that is missing or not a dict is refused by langchain); that check
    is not embedded, so the statements below speak of entries whose
    metadata is a dict, or are conditional on the resolver returning. *)
Definition standardize_one (converted_convo : list BaseMessage) (msg : jval)
  : list BaseMessage :=
  match msg with
  | JDict d =>
      let role := dict_get d "role" in
      let content := dict_get d "content" in
      let metadata := dict_get d "metadata" in
      if eq_str role "user" then
        converted_convo ++ [HumanMessage (CStr (py_str content)) metadata]
      else if eq_str role "assistant" then
        converted_convo ++ [AIMessage (CStr (py_str content)) metadata]
      else converted_convo
  | _ => converted_convo
  end.

(** The loop over the reversed history, with its counter and [break]. *)
Fixpoint standardize (existing_convo : list jval)
    (converted_convo : list BaseMessage) (counting_messages : nat)
  : list BaseMessage :=
  match existing_convo with
  | [] => converted_convo
  | msg :: rest =>
      let converted_convo := standardize_one converted_convo msg in
      let counting_messages := counting_messages + 1 in
      if (counting_messages =? 10)%nat then converted_convo
      else standardize rest converted_convo counting_messages
  end.

(** Lines 320-346: reverse, standardise at most ten entries, reverse
    back. *)
Definition cap_history (stored : list jval) : list BaseMessage :=
  let existing_convo := rev stored in
  rev (standardize existing_convo [] 0).

(** The loop that looks for the latest user message. *)
Fixpoint find_latest (items : list BaseMessage) (idx : nat)
    (latest_index : option nat) : option nat :=
  match items with
  | [] => latest_index
  | item :: rest =>
      find_latest rest (S idx)
        (if is_human item then Some idx else latest_index)
  end.

(** [converted_convo[:latest_index]]; a [None] stop keeps the list. *)
Definition slice_to_opt {A : Type} (l : list A) (stop : option nat) : list A :=
  match stop with
  | Some i => take i l
  | None => l
  end.

(** Lines 352-374: the new query and the truncated conversation. *)
Definition handle_mode (mode query : string) (edit_data : option EditData)
    (converted_convo : list BaseMessage)
  : result (string * list BaseMessage) :=
  if String.eqb mode "retry" || String.eqb mode "undo" then
    let latest_index := find_latest converted_convo 0 None in
    let new_query :=
      if String.eqb mode "retry" then
        match latest_index with
        | Some i =>
            match converted_convo !! i with
            | Some item => Ok (str_content (msg_content item))
            | None => Raise (IndexError "list index out of range")
            end
        | None => Ok query
        end
      else if String.eqb mode "undo" then Ok EmptyString
      else Ok query in
    match new_query with
    | Ok query => Ok (query, slice_to_opt converted_convo latest_index)
    | Raise e => Raise e
    end
  else if String.eqb mode "edit" then
    match edit_data with
    | Some ed =>
        let query := value ed in
        match index ed with
        | IndexInt i => Ok (query, slice_to converted_convo i)
        | IndexPair _ _ => Ok (query, converted_convo)
        end
    | None => Ok (query, converted_convo)
    end
  else Ok (query, converted_convo).

Definition wire_entry (role : string) (content : jval) (metadata : jval) : jval :=
  JDict (<["role" := JStr role]>
          (<["content" := content]>
            (<["metadata" := metadata]> ∅))).

(** Lines 381-394: a typed message back to the chatbot's shape. *)
Definition to_wire (msg : BaseMessage) : list jval :=
  match msg with
  | HumanMessage c md => [wire_entry "user" (content_json c) md]
  | AIMessage c md => [wire_entry "assistant" (content_json c) md]
  | ToolMessage _ _ => []
  end.

Definition user_entry (query : string) : jval :=
  wire_entry "user" (JStr query)
    (JDict (<["title" := JStr "User Message"]> ∅)).

(** [Agent._update_current_state] *)
Definition _update_current_state (w : World) (query selected_thread mode : string)
    (edit_data : option EditData)
  : result (string * list jval * string * string) * World :=
  let current_state := _get_checkpoint_state w selected_thread in
  let thread_state := load_all_from_sqlite w "threads" in
  match thread_state !! selected_thread with
  | None => (Raise (KeyError "source"), w)
  | Some existing_thread =>
      let source := md_source existing_thread in
      let group := md_group existing_thread in
      match loads (page_content existing_thread) with
      | Raise e => (Raise e, w)
      | Ok stored =>
          let converted_convo := cap_history stored in
          let handled :=
            match converted_convo with
            | [] => Ok (query, converted_convo, w)
            | _ :: _ =>
                match handle_mode mode query edit_data converted_convo with
                | Raise e => Raise e
                | Ok (query, converted_convo) =>
                    let w :=
                      if String.eqb mode "retry" || String.eqb mode "edit"
                         || String.eqb mode "main"
                      then update_state w selected_thread converted_convo
                      else w in
                    Ok (query, converted_convo, w)
                end
            end in
          match handled with
          | Raise e => (Raise e, w)
          | Ok (query, converted_convo, w) =>
              let transcript := flat_map to_wire converted_convo in
              let transcript :=
                if PyStr.is_empty query then transcript
                else transcript ++ [user_entry query] in
              (Ok (query, transcript, source, group), w)
          end
      end
  end.

(** *** The response stream assembler *)

(** The transcript being built, the snapshots yielded so far and the
    fingerprints already seen in this call. *)
Record stream_state : Type :=
  { st_transcript : list jval;
    st_yielded : list (list jval);
    processed_hashes : gset Z }.

(** [transcript.append(entry); yield transcript] *)
Definition append_yield (st : stream_state) (entry : jval) : stream_state :=
  let transcript := st_transcript st ++ [entry] in
  {| st_transcript := transcript;
     st_yielded := st_yielded st ++ [transcript];
     processed_hashes := processed_hashes st |}.

(** [hash((type(content_part), content_part.content))]; a list is
    unhashable. *)
Definition msg_hash (content_part : BaseMessage) : result Z :=
  match msg_content content_part with
  | CStr s => Ok (py_hash (type_of content_part) s)
  | CList _ => Raise (TypeError "unhashable type: 'list'")
  end.

(** [f"{name}"] for the optional tool name. *)
Definition format_name (name : option string) : string :=
  match name with
  | Some n => n
  | None => "None"
  end.

Definition thinking_entry (inside_content : string) : jval :=
  wire_entry "assistant" (JStr inside_content)
    (JDict (<["title" := JStr "Assistant Thinking..."]>
             (<["status" := JStr "done"]> ∅))).

Definition message_entry (outside_content : string) : jval :=
  wire_entry "assistant" (JStr outside_content)
    (JDict (<["title" := JStr "Assistant Message"]> ∅)).

Definition tool_entry (content : string) : jval :=
  wire_entry "assistant" (JStr content)
    (JDict (<["title" := JStr "Tool call output"]>
             (<["status" := JStr "done"]> ∅))).

(** Lines 474-507: what one message that passed the fingerprint test
    appends and yields. *)
Definition present (st : stream_state) (content_part : BaseMessage)
  : stream_state * option exn :=
  match content_part with
  | AIMessage (CStr c) _ =>
      match Tags._separate_ai_messages (Some c) with
      | Raise e => (st, Some e)
      | Ok (inside_tags, outside_tags) =>
          let st :=
            if PyStr.is_empty inside_tags then st
            else append_yield st (thinking_entry inside_tags) in
          let st :=
            if PyStr.is_empty outside_tags then st
            else append_yield st (message_entry outside_tags) in
          (st, None)
      end
  | AIMessage (CList _) _ => (st, None)
  | ToolMessage name c =>
      let message_out :=
        PyStr.newline +:+ "Content from `" +:+ format_name name
        +:+ "` toolcall:" +:+ PyStr.newline +:+ str_content c in
      if PyStr.is_empty message_out then (st, None)
      else (append_yield st (tool_entry message_out), None)
  | HumanMessage _ _ => (st, None)
  end.

(** Lines 467-507: the body of the loop over [valid_new_messages]. *)
Definition process_part (st : stream_state) (content_part : BaseMessage)
  : stream_state * option exn :=
  match msg_hash content_part with
  | Raise e => (st, Some e)
  | Ok h =>
      if decide (h ∈ processed_hashes st) then (st, None)
      else
        let st :=
          {| st_transcript := st_transcript st;
             st_yielded := st_yielded st;
             processed_hashes := processed_hashes st ∪ {[h]} |} in
        present st content_part
  end.

(** [msg.content == human_message.content] *)
Definition content_is (c : content) (s : string) : bool :=
  match c with
  | CStr s' => String.eqb s' s
  | CList _ => false
  end.

(** Lines 460-465: the messages of a step that are new and are not the
    user message just submitted. *)
Definition valid_new_messages (existing_messages_count : nat)
    (human_content : string) (current_messages : list BaseMessage)
  : list BaseMessage :=
  let new_messages := drop existing_messages_count current_messages in
  List.filter
    (fun msg => negb (is_human msg && content_is (msg_content msg) human_content))
    new_messages.

(** Lines 459-507: the body of the loop over the engine's steps. *)
Definition process_step (existing_messages_count : nat) (human_content : string)
    (st : stream_state) (s : step) : stream_state * option exn :=
  match s with
  | None | Some [] => (st, None)
  | Some current_messages =>
      for_each process_part st
        (valid_new_messages existing_messages_count human_content current_messages)
  end.

(** [Agent._astream_response]. The generator appends to the list object
    it was given, so the caller's [transcript] is the first component of
    the result; the second is the sequence of yielded snapshots. *)
Definition _astream_response (w : World) (transcript : list jval)
    (query selected_thread : string)
  : list jval * list (list jval) * option exn * World :=
  if PyStr.is_empty query then (transcript, [], None, w)
  else
    let content := query in
    let human_message := HumanMessage (CStr content) (JDict ∅) in
    let messages := [human_message] in
    let current_state := _get_checkpoint_state w selected_thread in
    let existing_messages_count :=
      match current_state with
      | Some msgs => length msgs
      | None => 0
      end in
    let stream := astream (checkpointer w) selected_thread messages in
    let w := {| sqlite_db := sqlite_db w; checkpointer := memory_after stream |} in
    let st0 := {| st_transcript := transcript; st_yielded := []; processed_hashes := ∅ |} in
    match for_each (process_step existing_messages_count content) st0 (steps stream) with
    | (st, Some e) => (st_transcript st, st_yielded st, Some e, w)
    | (st, None) => (st_transcript st, st_yielded st, raised stream, w)
    end.

(** *** Persistence and the entry point *)

(** [Agent._update_thread_history]: [INSERT OR REPLACE] of the document
    under the thread's id. *)
Definition _update_thread_history (w : World) (transcript : list jval)
    (group source selected_thread : string) : World :=
  let doc :=
    {| page_content := dumps transcript; md_source := source; md_group := group |} in
  {| sqlite_db := <[selected_thread := doc]> (sqlite_db w);
     checkpointer := checkpointer w |}.

(** What a caller that consumes the whole generator observes. *)
Record Run : Type :=
  { yields : list (list jval);
    outcome : option exn;
    world : World }.

(** [Agent.aget_agent_response] *)
Definition aget_agent_response (w : World) (query selected_thread mode : string)
    (edit_data : option EditData) : Run :=
  let resolved :=
    if String.eqb mode "main" then
      match _update_current_state w query selected_thread mode None with
      | (Ok (_, transcript, source, group), w) => (Ok (query, transcript, source, group), w)
      | (Raise e, w) => (Raise e, w)
      end
    else _update_current_state w query selected_thread mode edit_data in
  match resolved with
  | (Raise e, w) => {| yields := []; outcome := Some e; world := w |}
  | (Ok (query, transcript, source, group), w) =>
      let first := transcript in
      match _astream_response w transcript query selected_thread with
      | (transcript, responses, Some e, w) =>
          {| yields := first :: responses; outcome := Some e; world := w |}
      | (transcript, responses, None, w) =>
          {| yields := first :: responses;
             outcome := None;
             world := _update_thread_history w transcript group source selected_thread |}
      end
  end.

End Agent.

(** ** Vocabulary of the statements *)

Module TagSpec.
Import PyStr Tags.

(** [pat] occurs somewhere in [s]. *)
Definition occurs (pat s : string) : Prop :=
  exists a b, s = a +:+ pat +:+ b.

(** [s] is [a], then [pat], then [b], and no occurrence of [pat] in [s]
    starts further left. *)
Definition first_occurrence (pat s a b : string) : Prop :=
  s = a +:+ pat +:+ b /\
  forall a' b', s = a' +:+ pat +:+ b' -> String.length a <= String.length a'.

(** [text] holds a closed block: an opening tag with a closing tag
    somewhere behind it. *)
Definition closed_block (text : string) : Prop :=
  exists a i b, text = a +:+ open_tag +:+ i +:+ close_tag +:+ b.

Fixpoint all_space (s : string) : bool :=
  match s with
  | EmptyString => true
  | String c s' => isspace c && all_space s'
  end.

(** The final text as the specification words it: every closed block
    cut out of the input, nothing else, and the result trimmed. *)
Fixpoint cut_blocks (fuel : nat) (text : string) : string :=
  match fuel with
  | O => text
  | S fuel' =>
      match search_closed text with
      | None => text
      | Some (before, _, after) => before +:+ cut_blocks fuel' after
      end
  end.

Definition final_as_worded (text : string) : string :=
  strip (cut_blocks (String.length text) text).

(** [stripped text out]: [out] is [text] without its closed blocks and
    without the white space that touches a block on either side. The
    blocks are taken from the left: each one opens at the first opening
    tag of what is left and closes at the first closing tag behind it. *)
Inductive stripped : string -> string -> Prop :=
| stripped_done text :
    ~ closed_block text -> stripped text text
| stripped_block kept ws1 inner ws2 rest out :
    rstrip kept = kept -> all_space ws1 = true ->
    all_space ws2 = true -> lstrip rest = rest ->
    first_occurrence open_tag
      (kept +:+ ws1 +:+ open_tag +:+ inner +:+ close_tag +:+ ws2 +:+ rest)
      (kept +:+ ws1) (inner +:+ close_tag +:+ ws2 +:+ rest) ->
    first_occurrence close_tag
      (inner +:+ close_tag +:+ ws2 +:+ rest) inner (ws2 +:+ rest) ->
    stripped rest out ->
    stripped
      (kept +:+ ws1 +:+ open_tag +:+ inner +:+ close_tag +:+ ws2 +:+ rest)
      (kept +:+ out).

End TagSpec.

(** A message of the chatbot transcript as the persisted store holds it:
    the wire shape [{role, content, metadata}] with a [user] or
    [assistant] role, a string content and a metadata map. *)
Module Wire.

Inductive role : Type := User | Assistant.

Record msg : Type :=
  { msg_role : role; msg_text : string; msg_meta : gmap string jval }.

Definition role_str (r : role) : string :=
  match r with
  | User => "user"
  | Assistant => "assistant"
  end.

Definition to_json (m : msg) : jval :=
  JDict (<["role" := JStr (role_str (msg_role m))]>
          (<["content" := JStr (msg_text m)]>
            (<["metadata" := JDict (msg_meta m)]> ∅))).

(** The typed message the resolver makes of it. *)
Definition typed (m : msg) : BaseMessage :=
  match msg_role m with
  | User => HumanMessage (CStr (msg_text m)) (JDict (msg_meta m))
  | Assistant => AIMessage (CStr (msg_text m)) (JDict (msg_meta m))
  end.

(** The last [n] elements of a list. *)
Definition last_n {A : Type} (n : nat) (l : list A) : list A :=
  drop (length l - n) l.

End Wire.

Section AgentSpec.
Context {env : Collaborators}.

(** A stored entry the resolver turns into a typed message. *)
Definition convertible (entry : jval) : bool :=
  match entry with
  | JDict d => eq_str (dict_get d "role") "user" || eq_str (dict_get d "role") "assistant"
  | _ => false
  end.

(** The fingerprint of a message: its kind and its content. *)
Definition fingerprint (m : BaseMessage) : msg_type * content :=
  (type_of m, msg_content m).

(** The transcript entries one message gives rise to. *)
Definition part_entries (m : BaseMessage) : list jval :=
  st_transcript
    (fst (present {| st_transcript := []; st_yielded := []; processed_hashes := ∅ |} m)).

(** The messages of all steps that the assembler looks at, in order. *)
Definition scanned (existing_messages_count : nat) (human_content : string)
    (ss : list step) : list BaseMessage :=
  flat_map
    (fun s : step =>
       match s with
       | Some current_messages =>
           valid_new_messages existing_messages_count human_content current_messages
       | None => []
       end) ss.

(** The scanned messages that are presented: the first of each
    fingerprint hash, up to the first message that cannot be hashed. *)
Fixpoint presented (seen : gset Z) (parts : list BaseMessage) : list BaseMessage :=
  match parts with
  | [] => []
  | m :: rest =>
      match msg_hash m with
      | Raise _ => []
      | Ok h =>
          if decide (h ∈ seen) then presented seen rest
          else m :: presented (seen ∪ {[h]}) rest
      end
  end.

(** All non-empty prefixes of [new], each behind [base]: the snapshots
    yielded while [new] is appended entry by entry. *)
Fixpoint snapshots (base new : list jval) : list (list jval) :=
  match new with
  | [] => []
  | e :: new' => (base ++ [e]) :: snapshots (base ++ [e]) new'
  end.

(** The entries one call of the assembler appends for a query. *)
Definition streamed (w : World) (query selected_thread : string) : list jval :=
  let count :=
    match checkpointer w !! selected_thread with
    | Some msgs => length msgs
    | None => 0
    end in
  let stream :=
    astream (checkpointer w) selected_thread [HumanMessage (CStr query) (JDict ∅)] in
  flat_map part_entries (presented ∅ (scanned count query (steps stream))).

(** The entries of a new turn: the echoed user entry and what the
    assembler streams behind it; nothing for an empty query. *)
Definition new_turn (w : World) (query selected_thread : string) : list jval :=
  if PyStr.is_empty query then []
  else user_entry query :: streamed w query selected_thread.

(** Retry and undo as the specification words them, for one capped
    history: there is a last user message, the history is cut in front
    of it, retry asks its content again and undo asks nothing. *)
Definition retry_undo_as_worded (query : string) (convo : list BaseMessage) : Prop :=
  exists before u after,
    convo = before ++ u :: after /\ is_human u = true /\
    Forall (fun m => is_human m = false) after /\
    handle_mode "retry" query None convo
    = Ok (str_content (msg_content u), before) /\
    handle_mode "undo" query None convo = Ok ("", before).

End AgentSpec.

(** ** A scripted environment, for concrete runs *)

Module Script.

Definition reply : BaseMessage :=
  AIMessage (CStr "<think>plan</think>Hello!") (JDict ∅).

Definition tool_reply : BaseMessage :=
  ToolMessage (Some "search") (CStr "3 hits").

Definition asks (q : string) (msgs : list BaseMessage) : bool :=
  match msgs with
  | [HumanMessage (CStr q') _] => String.eqb q' q
  | _ => false
  end.

(** An engine that answers every query in three cumulative steps (the
    conversation so far, then a tool result, then the reply), and that
    fails after the first step when asked ["boom"]. *)
Definition engine (memory : gmap string (list BaseMessage)) (thread_id : string)
    (msgs : list BaseMessage) : Stream :=
  let so_far := default [] (memory !! thread_id) ++ msgs in
  if asks "boom" msgs then
    {| steps := [Some so_far];
       raised := Some (EngineError "boom");
       memory_after := <[thread_id := so_far]> memory |}
  else
    {| steps := [Some so_far; Some (so_far ++ [tool_reply]);
                 Some (so_far ++ [tool_reply; reply])];
       raised := None;
       memory_after := <[thread_id := so_far ++ [tool_reply; reply]]> memory |}.

Definition type_code (t : msg_type) : Z :=
  match t with
  | THumanMessage => 0
  | TAIMessage => 1
  | TToolMessage => 2
  end.

Definition repr (v : jval) : string :=
  match v with
  | JNull => "None"
  | JBool true => "True"
  | JBool false => "False"
  | _ => "?"
  end.

#[export] Instance env : Collaborators :=
  {| py_repr := repr;
     py_hash := fun t s => (3 * Z.of_nat (String.length s) + type_code t)%Z;
     add_messages := fun _ update => update;
     astream := engine |}.

Definition hello : Wire.msg :=
  {| Wire.msg_role := Wire.User; Wire.msg_text := "Hello";
     Wire.msg_meta := <["key" := JStr "value"]> ∅ |}.

Definition hi_there : Wire.msg :=
  {| Wire.msg_role := Wire.Assistant; Wire.msg_text := "Hi there!";
     Wire.msg_meta := ∅ |}.

Definition numbered (r : Wire.role) (n : nat) : Wire.msg :=
  {| Wire.msg_role := r;
     Wire.msg_text := String (ascii_of_nat (65 + n)) "";
     Wire.msg_meta := ∅ |}.

(** Twelve messages, A to L, alternating user and assistant. *)
Definition long_history : list Wire.msg :=
  flat_map (fun n => [numbered Wire.User (2 * n); numbered Wire.Assistant (2 * n + 1)])
    (seq 0 6).



Definition thread_doc (h : list jval) : Document :=
  {| page_content := JsonArray h; md_source := "chat"; md_group := "demo_threads" |}.

(** The tail of a long turn: assistant entries only. *)
Definition busy_history : list Wire.msg :=
  [numbered Wire.Assistant 0; numbered Wire.Assistant 1].

(** A store with five threads of the codebase ["demo"]: the two-message
    history of the repository's tests, a long one, an empty one, one
    without a user message and one whose text is not JSON. *)
Definition world : World :=
  {| sqlite_db :=
       <["short" := thread_doc (map Wire.to_json [hello; hi_there])]>
         (<["long" := thread_doc (map Wire.to_json long_history)]>
           (<["new" := thread_doc []]>
             (<["busy" := thread_doc (map Wire.to_json busy_history)]>
               (<["broken" := {| page_content := NotJson "[{";
                                 md_source := "chat";
                                 md_group := "demo_threads" |}]> ∅))));
     checkpointer := ∅ |}.

End Script.

(** ** The threads manager ([pyfiles/bases/threads.py]), chat threads *)

(** What [Threads.get_state_details] returns: the empty string for an
    unknown thread, the raw text of a code document, the parsed
    transcript of a chat thread. *)
Inductive details : Type :=
| NoDetails
| RawDetails (text : page)
| ChatDetails (transcript : list jval).

(** The exception of reading a local variable that was never bound. *)
Inductive name_error : Type :=
| UnboundLocalError (variable : string).

Section Threads.
Variable codebase : string.

(** [Threads.get_list]: the pairs (name, id) of the loaded threads. The
    order is the one in which the database returns the rows; the model
    lists them in the order of the map. *)
Definition get_list (w : World) (load_type : string) : list (string * string) :=
  map (fun kv => (md_source (snd kv), fst kv))
    (map_to_list (load_all_from_sqlite codebase w load_type)).

(** [Threads.get_state_details] *)
Definition get_state_details (w : World) (load_type thread_id : string)
  : result details :=
  let thread_state := load_all_from_sqlite codebase w load_type in
  match thread_state !! thread_id with
  | Some thread =>
      if String.eqb load_type "code" then Ok (RawDetails (page_content thread))
      else
        match loads (page_content thread) with
        | Ok transcript => Ok (ChatDetails transcript)
        | Raise e => Raise e
        end
  | None => Ok NoDetails
  end.

(** [SQLiteDB.delete_documents_by_id]: the rows with these ids go,
    whatever their group. *)
Definition delete_documents_by_id (w : World) (doc_ids : list string) : World :=
  {| sqlite_db := foldl (fun db doc_id => delete doc_id db) (sqlite_db w) doc_ids;
     checkpointer := checkpointer w |}.

(** [SQLiteDB.insert_documents]: [INSERT OR REPLACE] of each document
    under the id paired with it by [zip]. *)
Definition insert_documents (w : World) (documents : list Document)
    (ids : list string) : World :=
  {| sqlite_db :=
       foldl (fun db p => <[snd p := fst p]> db) (sqlite_db w) (zip documents ids);
     checkpointer := checkpointer w |}.

(** [Threads.create] with [load_type="threads"]; [thread_id] is the
    value of [str(uuid4())]. The result holds the thread list, the new
    id, [None] for the files and the status message. *)
Definition create_thread (w : World) (name : option string) (thread_id : string)
  : World * (list (string * string) * string * option (list string) * string) :=
  let name := match name with Some n => n | None => "unnamed" end in
  let group := codebase +:+ "_threads" in
  let docs :=
    [{| page_content := JsonArray []; md_source := name; md_group := group |}] in
  let w := insert_documents w docs [thread_id] in
  let choices := get_list w "threads" in
  let status_message := "Created thread `" +:+ name +:+ "`" in
  (w, (choices, thread_id, None, status_message)).

(** [Threads.delete] with [load_type="threads"]. [thread_name] is bound
    only when the thread is among the loaded ones; the status message
    reads it after the row was deleted. *)
Definition delete_thread (w : World) (thread_id : string)
  : World * (name_error + (list (string * string) * option string * string)) :=
  let thread_state := load_all_from_sqlite codebase w "threads" in
  let thread_name := md_source <$> thread_state !! thread_id in
  let w := delete_documents_by_id w [thread_id] in
  let choices := get_list w "threads" in
  let next_selected :=
    match choices with
    | c :: _ => Some (snd c)
    | [] => None
    end in
  match thread_name with
  | Some thread_name =>
      (w, inr (choices, next_selected, "Deleted thread `" +:+ thread_name +:+ "`"))
  | None => (w, inl (UnboundLocalError "thread_name"))
  end.

End Threads.

(** ** More vocabulary *)

(** A message whose content can be hashed: a string, not a list. *)
Definition hashable (m : BaseMessage) : bool :=
  match msg_content m with
  | CStr _ => true
  | CList _ => false
  end.

(** The titles of the entries the assembler makes. *)
Definition assembler_title (t : jval) : Prop :=
  t = JStr "Assistant Thinking..." \/ t = JStr "Assistant Message"
  \/ t = JStr "Tool call output".

(** A text with an opening tag that is never closed, and what follows
    the tag. *)
Module Texts.

Definition unclosed_tail : string := " why" +:+ PyStr.newline +:+ " answer ".
Definition unclosed : string := "intro <think>" +:+ unclosed_tail.

End Texts.

(** * Properties *)

(** ** Strings *)

Module StrFacts.
Import PyStr TagSpec.

Lemma app_nil_r (s : string) : s +:+ "" = s.
Proof. induction s as [|c s IH]; cbn; [reflexivity | now f_equal]. Qed.

Lemma app_assoc (a b c : string) : (a +:+ b) +:+ c = a +:+ b +:+ c.
Proof. induction a as [|x a IH]; cbn; [reflexivity | now f_equal]. Qed.

Lemma length_app (a b : string) :
  String.length (a +:+ b) = String.length a + String.length b.
Proof. induction a as [|x a IH]; cbn; [reflexivity | now f_equal]. Qed.

Lemma app_inv_head (a b c : string) : a +:+ b = a +:+ c -> b = c.
Proof. induction a as [|x a IH]; simpl; intros H; [assumption|]. injection H. auto. Qed.

(** Two ways of cutting one string, the first cut not behind the
    second. *)
Lemma app_eq_split (a b c d : string) :
  a +:+ b = c +:+ d -> String.length a <= String.length c ->
  exists m, c = a +:+ m /\ b = m +:+ d.
Proof.
  revert c. induction a as [|x a IH]; simpl; intros c H Hl.
  - exists c. split; [reflexivity | assumption].
  - destruct c as [|y c]; simpl in *; [lia|].
    injection H as -> H. destruct (IH c H) as [m [-> ->]]; [lia|].
    exists m. split; reflexivity.
Qed.

Lemma startswith_app (p b : string) : startswith p (p +:+ b) = true.
Proof.
  induction p as [|x p IH]; simpl; [reflexivity|].
  now rewrite Ascii.eqb_refl.
Qed.

Lemma startswith_inv (p s : string) :
  startswith p s = true -> s = p +:+ drop (String.length p) s.
Proof.
  revert s. induction p as [|x p IH]; intros s H; simpl in *.
  - reflexivity.
  - destruct s as [|y s]; [discriminate|].
    apply andb_prop in H as [Hxy H]. apply Ascii.eqb_eq in Hxy as ->.
    f_equal. apply IH, H.
Qed.

Lemma partition_sound (pat s a b : string) :
  partition pat s = Some (a, b) -> s = a +:+ pat +:+ b.
Proof.
  revert a b. induction s as [|c s IH]; intros a b; simpl.
  - destruct (startswith pat "") eqn:Hp; [|discriminate].
    intros [= <- <-]. simpl. apply startswith_inv, Hp.
  - destruct (startswith pat (String c s)) eqn:Hp.
    + intros [= <- <-]. simpl. apply startswith_inv, Hp.
    + destruct (partition pat s) as [[a0 b0]|]; [|discriminate].
      intros [= <- <-]. simpl. f_equal. apply IH. reflexivity.
Qed.

Lemma partition_leftmost (pat s a b : string) :
  partition pat s = Some (a, b) ->
  forall a' b', s = a' +:+ pat +:+ b' -> String.length a <= String.length a'.
Proof.
  revert a b. induction s as [|c s IH]; intros a b; simpl.
  - destruct (startswith pat ""); [|discriminate].
    intros [= <- <-] a' b' _. simpl. lia.
  - destruct (startswith pat (String c s)) eqn:Hp.
    + intros [= <- <-] a' b' _. simpl. lia.
    + destruct (partition pat s) as [[a0 b0]|] eqn:Hs; [|discriminate].
      intros [= <- <-] a' b' E.
      destruct a' as [|y a']; simpl in E.
      * rewrite E, startswith_app in Hp. discriminate.
      * injection E as _ E. simpl.
        specialize (IH a0 b0 eq_refl a' b' E). lia.
Qed.

Lemma partition_complete (pat s : string) :
  occurs pat s -> exists a b, partition pat s = Some (a, b).
Proof.
  intros (a' & b' & ->). induction a' as [|c a' IH]; simpl.
  - destruct (pat +:+ b') eqn:E; simpl; rewrite <- ?E, startswith_app; eauto.
  - destruct (startswith pat (String c (a' +:+ pat +:+ b'))); [eauto|].
    destruct IH as (a & b & ->). eauto.
Qed.

Lemma partition_first (pat s a b : string) :
  partition pat s = Some (a, b) -> first_occurrence pat s a b.
Proof.
  intros H. split; [apply partition_sound, H | apply (partition_leftmost _ _ _ _ H)].
Qed.

Lemma partition_None (pat s : string) :
  partition pat s = None <-> ~ occurs pat s.
Proof.
  split.
  - intros H Ho. destruct (partition_complete _ _ Ho) as (a & b & E). congruence.
  - intros H. destruct (partition pat s) as [[a b]|] eqn:E; [|reflexivity].
    exfalso. apply H. exists a, b. apply partition_sound, E.
Qed.

(** *** Trimming *)

Lemma lstrip_split (s : string) :
  exists ws, s = ws +:+ lstrip s /\ all_space ws = true.
Proof.
  induction s as [|c s (ws & E & Hws)]; simpl.
  - exists "". split; reflexivity.
  - destruct (isspace c) eqn:Hc.
    + exists (String c ws). simpl. rewrite Hc, Hws. split; [now f_equal | reflexivity].
    + exists "". split; reflexivity.
Qed.

Lemma lstrip_idem (s : string) : lstrip (lstrip s) = lstrip s.
Proof.
  induction s as [|c s IH]; simpl; [reflexivity|].
  destruct (isspace c) eqn:Hc; [assumption|]. simpl. now rewrite Hc.
Qed.

Lemma length_lstrip (s : string) : String.length (lstrip s) <= String.length s.
Proof.
  induction s as [|c s IH]; simpl; [lia|]. destruct (isspace c); simpl; lia.
Qed.

Lemma rstrip_empty (s : string) : is_empty (rstrip s) = all_space s.
Proof.
  induction s as [|c s IH]; simpl; [reflexivity|].
  rewrite <- IH. destruct (isspace c), (is_empty (rstrip s)); reflexivity.
Qed.

Lemma is_empty_true (s : string) : is_empty s = true -> s = "".
Proof. destruct s; [reflexivity | discriminate]. Qed.

Lemma rstrip_split (s : string) :
  exists ws, s = rstrip s +:+ ws /\ all_space ws = true.
Proof.
  induction s as [|c s (ws & E & Hws)]; simpl.
  - exists "". split; reflexivity.
  - destruct (isspace c && is_empty (rstrip s)) eqn:Hc.
    + exists (String c s). split; [reflexivity|].
      apply andb_prop in Hc as [Hc He]. simpl.
      now rewrite Hc, <- rstrip_empty, He.
    + exists ws. simpl. split; [now f_equal | assumption].
Qed.

Lemma rstrip_idem (s : string) : rstrip (rstrip s) = rstrip s.
Proof.
  induction s as [|c s IH]; simpl; [reflexivity|].
  destruct (isspace c && is_empty (rstrip s)) eqn:Hc; [reflexivity|].
  simpl. now rewrite IH, Hc.
Qed.

(** *** Closed blocks *)

Lemma search_closed_first (text before inner after : string) :
  Tags.search_closed text = Some (before, inner, after) ->
  first_occurrence Tags.open_tag text before (inner +:+ Tags.close_tag +:+ after)
  /\ first_occurrence Tags.close_tag (inner +:+ Tags.close_tag +:+ after) inner after.
Proof.
  unfold Tags.search_closed.
  destruct (partition Tags.open_tag text) as [[b rest]|] eqn:Ho; [|discriminate].
  destruct (partition Tags.close_tag rest) as [[i a]|] eqn:Hc; [|discriminate].
  intros [= <- <- <-].
  pose proof (partition_sound _ _ _ _ Hc) as <-.
  split; apply partition_first; assumption.
Qed.

Lemma search_closed_complete (text : string) :
  closed_block text -> exists b i a, Tags.search_closed text = Some (b, i, a).
Proof.
  intros (a0 & i0 & b0 & E). unfold Tags.search_closed.
  destruct (partition_complete Tags.open_tag text) as (a & rest & Ho).
  { exists a0, (i0 +:+ Tags.close_tag +:+ b0). exact E. }
  rewrite Ho.
  pose proof (partition_sound _ _ _ _ Ho) as Et.
  pose proof (partition_leftmost _ _ _ _ Ho _ _ E) as Hl.
  rewrite E in Et. symmetry in Et.
  destruct (app_eq_split _ _ _ _ Et Hl) as (m & -> & Er).
  rewrite <- app_assoc in Er.
  destruct (app_eq_split _ _ _ _ Er) as (m' & _ & ->).
  { rewrite length_app. lia. }
  destruct (partition_complete Tags.close_tag (m' +:+ i0 +:+ Tags.close_tag +:+ b0))
    as (i & a' & ->).
  { exists (m' +:+ i0), b0. now rewrite app_assoc. }
  eauto.
Qed.

Lemma search_closed_None (text : string) :
  Tags.search_closed text = None <-> ~ closed_block text.
Proof.
  split.
  - intros H Hc. destruct (search_closed_complete _ Hc) as (b & i & a & E). congruence.
  - intros H. destruct (Tags.search_closed text) as [[[b i] a]|] eqn:E; [|reflexivity].
    exfalso. apply H. exists b, i, a.
    apply search_closed_first in E as [[E _] _]. exact E.
Qed.

(** With enough fuel the substitution removes every closed block and
    the white space around it. *)
Lemma sub_closed_stripped (fuel : nat) (text : string) :
  String.length text <= fuel -> stripped text (Tags.sub_closed fuel text).
Proof.
  revert text. induction fuel as [|fuel IH]; intros text Hlen; simpl.
  - apply stripped_done. intros (a & i & b & ->).
    rewrite !length_app in Hlen. simpl in Hlen. lia.
  - destruct (Tags.search_closed text) as [[[before inner] after]|] eqn:E.
    2:{ apply stripped_done, search_closed_None, E. }
    destruct (search_closed_first _ _ _ _ E) as [Ho Hc].
    destruct (rstrip_split before) as (ws1 & Eb & Hws1).
    destruct (lstrip_split after) as (ws2 & Ea & Hws2).
    assert (Et : text = rstrip before +:+ ws1 +:+ Tags.open_tag +:+ inner
                        +:+ Tags.close_tag +:+ ws2 +:+ lstrip after).
    { destruct Ho as [-> _].
      rewrite <- Ea, <- (app_assoc (rstrip before) ws1), <- Eb. reflexivity. }
    rewrite Et at 1.
    apply stripped_block; try assumption.
    + apply rstrip_idem.
    + apply lstrip_idem.
    + rewrite <- Et, <- Eb, <- Ea. exact Ho.
    + rewrite <- Ea. exact Hc.
    + apply IH. pose proof (length_lstrip after).
      destruct Ho as [-> _]. rewrite !length_app in Hlen. simpl in Hlen. lia.
Qed.

(** *** The stripped text is determined by the input *)

Lemma length_zero (s : string) : String.length s = 0 -> s = "".
Proof. destruct s; [reflexivity | discriminate]. Qed.

Lemma first_occurrence_unique (pat s a b a' b' : string) :
  first_occurrence pat s a b -> first_occurrence pat s a' b' ->
  a = a' /\ b = b'.
Proof.
  intros [E L] [E' L'].
  pose proof (L _ _ E') as H1. pose proof (L' _ _ E) as H2.
  rewrite E in E'.
  destruct (app_eq_split _ _ _ _ E' H1) as (m & -> & Em).
  rewrite length_app in H2.
  assert (m = "") as -> by (apply length_zero; lia).
  rewrite app_nil_r. split; [reflexivity|].
  simpl in Em. eapply app_inv_head, Em.
Qed.

Lemma rstrip_app_space (k ws : string) :
  all_space ws = true -> rstrip (k +:+ ws) = rstrip k.
Proof.
  intros Hws. induction k as [|c k IH]; simpl.
  - apply is_empty_true. now rewrite rstrip_empty.
  - now rewrite IH.
Qed.

Lemma lstrip_app_space (ws r : string) :
  all_space ws = true -> lstrip (ws +:+ r) = lstrip r.
Proof.
  induction ws as [|c ws IH]; simpl; [reflexivity|].
  intros H. apply andb_prop in H as [-> H]. auto.
Qed.

Lemma stripped_inv (text o : string) :
  stripped text o ->
  (~ closed_block text /\ o = text) \/
  exists kept ws1 inner ws2 rest out,
    text = kept +:+ ws1 +:+ Tags.open_tag +:+ inner +:+ Tags.close_tag +:+ ws2 +:+ rest
    /\ o = kept +:+ out
    /\ rstrip kept = kept /\ all_space ws1 = true
    /\ all_space ws2 = true /\ lstrip rest = rest
    /\ first_occurrence Tags.open_tag text (kept +:+ ws1)
         (inner +:+ Tags.close_tag +:+ ws2 +:+ rest)
    /\ first_occurrence Tags.close_tag
         (inner +:+ Tags.close_tag +:+ ws2 +:+ rest) inner (ws2 +:+ rest)
    /\ stripped rest out.
Proof.
  intros [t Hn | kept ws1 inner ws2 rest out Hk Hw1 Hw2 Hr Ho Hc Hs].
  - left. split; [assumption | reflexivity].
  - right. exists kept, ws1, inner, ws2, rest, out. repeat split; assumption || apply Ho || apply Hc.
Qed.

Lemma stripped_fun (text o1 o2 : string) :
  stripped text o1 -> stripped text o2 -> o1 = o2.
Proof.
  intros H1. revert o2.
  induction H1 as [text Hn | kept ws1 inner ws2 rest out Hk Hw1 Hw2 Hr Ho Hc _ IH];
    intros o2 H2; apply stripped_inv in H2.
  - destruct H2 as [[_ ->] | (k' & w1' & i' & w2' & r' & o' & Et & _)]; [reflexivity|].
    exfalso. apply Hn. exists (k' +:+ w1'), i', (w2' +:+ r').
    now rewrite app_assoc.
  - destruct H2 as [[Hn' _] |
      (k' & w1' & i' & w2' & r' & o' & Et & -> & Hk' & Hw1' & Hw2' & Hr' & Ho' & Hc' & Hs')].
    + exfalso. apply Hn'. exists (kept +:+ ws1), inner, (ws2 +:+ rest).
      now rewrite app_assoc.
    + destruct (first_occurrence_unique _ _ _ _ _ _ Ho Ho') as [Ea Eb].
      rewrite <- Eb in Hc'.
      destruct (first_occurrence_unique _ _ _ _ _ _ Hc Hc') as [Ei Er].
      assert (kept = k') as <-.
      { rewrite <- Hk, <- Hk', <- (rstrip_app_space kept ws1 Hw1),
          <- (rstrip_app_space k' w1' Hw1'). now rewrite Ea. }
      assert (rest = r') as <-.
      { rewrite <- Hr, <- Hr', <- (lstrip_app_space ws2 rest Hw2),
          <- (lstrip_app_space w2' r' Hw2'). now rewrite Er. }
      f_equal. apply IH, Hs'.
Qed.

End StrFacts.

Example test_separate_messages_success :
  Tags.separate "<think>Some context</think> This is actual content."
  = Ok ("Some context", "This is actual content.").
Proof. reflexivity. Qed.

Example test_separate_messages_only_opening :
  Tags.separate "<think> Some content" = Ok ("", "Some content").
Proof. reflexivity. Qed.

Example test_separate_messages_only_closing :
  Tags.separate "Some content </think>" = Ok ("", "Some content </think>").
Proof. reflexivity. Qed.

Example test_separate_messages_closed_and_opening :
  Tags.separate "<think>First</think> and <think>" = Ok ("First", "and <think>").
Proof. reflexivity. Qed.

Example test_separate_messages_closed_and_closing :
  Tags.separate "<think>First</think> and </think>" = Ok ("First", "and </think>").
Proof. reflexivity. Qed.

(** ** The tag separator *)

Module TagFacts.
Import PyStr Tags TagSpec StrFacts.

Lemma separate_no_open (x : string) :
  partition open_tag x = None -> separate x = Ok ("", x).
Proof.
  intros H. unfold separate, _separate_ai_messages, search_closed.
  rewrite H. reflexivity.
Qed.

Lemma separate_closed_eq (text before inner after : string) :
  search_closed text = Some (before, inner, after) ->
  separate text = Ok (strip inner, strip (sub_think text)).
Proof.
  intros H. unfold separate, _separate_ai_messages. rewrite H. reflexivity.
Qed.

(** The separator never raises on a string. *)
Lemma separate_total (text : string) : exists r f, separate text = Ok (r, f).
Proof.
  unfold separate, _separate_ai_messages.
  destruct (search_closed text) as [[[b i] a]|]; [eauto|].
  destruct (partition open_tag text) as [[b t]|]; [|eauto].
  unfold split_newline_1. destruct (partition newline (strip t)) as [[l0 l1]|]; eauto.
Qed.

End TagFacts.

(** C9. A text without any opening tag (a lone closing tag is allowed)
    comes back unchanged as the final part, with empty reasoning: it is
    neither trimmed nor is a lone closing tag taken out. Separating the
    final part again therefore gives the same pair. *)
Theorem separate_tag_free (x : string) :
  ~ TagSpec.occurs Tags.open_tag x ->
  Tags.separate x = Ok ("", x) /\
  (forall r f, Tags.separate x = Ok (r, f) -> Tags.separate f = Ok ("", x)).
Proof.
  intros H. apply StrFacts.partition_None in H.
  pose proof (TagFacts.separate_no_open x H) as E.
  split; [exact E|].
  intros r f E'. rewrite E in E'. injection E' as <- <-. exact E.
Qed.

Lemma separate_tag_free_witness :
  ~ TagSpec.occurs Tags.open_tag "  Some content </think> " /\
  Tags.separate "  Some content </think> " = Ok ("", "  Some content </think> ") /\
  (forall r f, Tags.separate "  Some content </think> " = Ok (r, f) ->
               Tags.separate f = Ok ("", "  Some content </think> ")).
Proof.
  assert (H : ~ TagSpec.occurs Tags.open_tag "  Some content </think> ").
  { apply StrFacts.partition_None. reflexivity. }
  split; [exact H | exact (separate_tag_free "  Some content </think> " H)].
Defined.

(** C4, as the specification words it:
    the final part would be the input with the closed
    blocks cut out and the result trimmed. The code also takes out the
    white space next to each block, so two words that a block separates
    run together. *)
Lemma separate_closed_not_as_worded :
  TagSpec.closed_block "a <think>x</think> b" /\
  TagSpec.final_as_worded "a <think>x</think> b" = "a  b" /\
  Tags.separate "a <think>x</think> b" = Ok ("x", "ab") /\
  Tags.separate "a <think>x</think> b"
  <> Ok ("x", TagSpec.final_as_worded "a <think>x</think> b").
Proof.
  split; [|split; [reflexivity | split; [reflexivity | discriminate]]].
  exists "a ", "x", " b". reflexivity.
Qed.

(** C4, as the code has it.
    When the text holds a closed block, the reasoning is the
    trimmed content of the first block (from the first opening tag to the
    first closing tag behind it), and the final part is the trimmed text
    that is left once every closed block is removed together with the
    white space directly before and after it. In particular the text
    "<think>First</think> and <think>Second</think>" separates into
    "First" and "and". *)
Theorem separate_closed :
  (forall text : string,
     TagSpec.closed_block text ->
     exists before inner after out,
       TagSpec.first_occurrence Tags.open_tag text before
         (inner +:+ Tags.close_tag +:+ after) /\
       TagSpec.first_occurrence Tags.close_tag
         (inner +:+ Tags.close_tag +:+ after) inner after /\
       TagSpec.stripped text out /\
       (forall out', TagSpec.stripped text out' -> out' = out) /\
       Tags.separate text = Ok (PyStr.strip inner, PyStr.strip out)) /\
  Tags.separate "<think>First</think> and <think>Second</think>"
  = Ok ("First", "and").
Proof.
  split; [|reflexivity].
  intros text Hc.
  destruct (StrFacts.search_closed_complete text Hc) as (b & i & a & E).
  destruct (StrFacts.search_closed_first _ _ _ _ E) as [Ho Hcl].
  pose proof (StrFacts.sub_closed_stripped (String.length text) text (le_n _)) as Hs.
  exists b, i, a, (Tags.sub_think text).
  repeat split; try apply Ho; try apply Hcl; try exact Hs.
  - intros out' Hs'. exact (StrFacts.stripped_fun _ _ _ Hs' Hs).
  - exact (TagFacts.separate_closed_eq _ _ _ _ E).
Qed.

Lemma separate_closed_witness :
  TagSpec.closed_block " lead <think> why </think>  tail <think>more</think> end " /\
  exists before inner after out,
    TagSpec.first_occurrence Tags.open_tag
      " lead <think> why </think>  tail <think>more</think> end " before
      (inner +:+ Tags.close_tag +:+ after) /\
    TagSpec.first_occurrence Tags.close_tag
      (inner +:+ Tags.close_tag +:+ after) inner after /\
    TagSpec.stripped " lead <think> why </think>  tail <think>more</think> end " out /\
    (forall out', TagSpec.stripped
       " lead <think> why </think>  tail <think>more</think> end " out' -> out' = out) /\
    Tags.separate " lead <think> why </think>  tail <think>more</think> end "
    = Ok (PyStr.strip inner, PyStr.strip out).
Proof.
  assert (H : TagSpec.closed_block
                " lead <think> why </think>  tail <think>more</think> end ").
  { exists " lead ", " why ", "  tail <think>more</think> end ". reflexivity. }
  split; [exact H|].
  exact (proj1 separate_closed _ H).
Defined.

(** ** The mode resolver *)

Section ResolverFacts.
Context {env : Collaborators}.
Variable codebase : string.

Lemma standardize_one_app (acc : list BaseMessage) (entry : jval) :
  standardize_one acc entry = acc ++ standardize_one [] entry.
Proof.
  unfold standardize_one. destruct entry; try (now rewrite app_nil_r).
  destruct (eq_str _ "user"); [reflexivity|].
  destruct (eq_str _ "assistant"); [reflexivity | now rewrite app_nil_r].
Qed.

Lemma standardize_one_length (entry : jval) :
  length (standardize_one [] entry) = if convertible entry then 1 else 0.
Proof.
  unfold standardize_one, convertible. destruct entry; try reflexivity.
  destruct (eq_str _ "user"); [reflexivity|].
  destruct (eq_str _ "assistant"); reflexivity.
Qed.

(** The loop looks at the first [10 - counting_messages] entries and at
    nothing else: every entry it looks at moves the counter. *)
Lemma standardize_take (l : list jval) (acc : list BaseMessage) (n : nat) :
  n < 10 ->
  standardize l acc n = acc ++ flat_map (standardize_one []) (take (10 - n) l).
Proof.
  revert acc n. induction l as [|entry l IH]; intros acc n Hn.
  - destruct (10 - n); simpl; now rewrite app_nil_r.
  - simpl standardize. rewrite standardize_one_app.
    destruct (Nat.eqb_spec (n + 1) 10) as [E|E].
    + replace (10 - n) with 1 by lia. simpl. now rewrite app_nil_r.
    + rewrite IH by lia. replace (10 - n) with (S (10 - (n + 1))) by lia.
      simpl. now rewrite <- app_assoc.
Qed.

Lemma rev_flat_map_standardize (l : list jval) :
  rev (flat_map (standardize_one []) l) = flat_map (standardize_one []) (rev l).
Proof.
  induction l as [|entry l IH]; [reflexivity|].
  simpl. rewrite rev_app_distr, IH, flat_map_app. simpl. rewrite app_nil_r.
  f_equal. pose proof (standardize_one_length entry) as Hl.
  destruct (standardize_one [] entry) as [|m [|m' t]]; try reflexivity.
  simpl in Hl. destruct (convertible entry); discriminate.
Qed.

(** The capped history is made of the last ten stored entries. *)
Lemma cap_history_last (stored : list jval) :
  cap_history stored = flat_map (standardize_one []) (Wire.last_n 10 stored).
Proof.
  unfold cap_history, Wire.last_n.
  rewrite standardize_take by lia. simpl.
  rewrite rev_flat_map_standardize. f_equal.
  change (10 - 0) with 10. rewrite firstn_rev. apply rev_involutive.
Qed.

Lemma length_flat_map_standardize (l : list jval) :
  length (flat_map (standardize_one []) l) = length (List.filter convertible l).
Proof.
  induction l as [|entry l IH]; [reflexivity|].
  simpl. rewrite length_app, standardize_one_length, IH.
  destruct (convertible entry); reflexivity.
Qed.

(** *** Stored wire messages *)

Lemma standardize_wire (m : Wire.msg) :
  standardize_one [] (Wire.to_json m) = [Wire.typed m].
Proof.
  destruct m as [[] text meta]; reflexivity.
Qed.

Lemma to_wire_typed (m : Wire.msg) : to_wire (Wire.typed m) = [Wire.to_json m].
Proof. destruct m as [[] text meta]; reflexivity. Qed.

Lemma flat_map_standardize_wire (h : list Wire.msg) :
  flat_map (standardize_one []) (map Wire.to_json h) = map Wire.typed h.
Proof.
  induction h as [|m h IH]; [reflexivity|].
  cbn [map flat_map]. now rewrite standardize_wire, IH.
Qed.

Lemma flat_map_to_wire_typed (h : list Wire.msg) :
  flat_map to_wire (map Wire.typed h) = map Wire.to_json h.
Proof.
  induction h as [|m h IH]; [reflexivity|].
  cbn [map flat_map]. now rewrite to_wire_typed, IH.
Qed.

Lemma last_n_map {A B : Type} (f : A -> B) (n : nat) (l : list A) :
  Wire.last_n n (map f l) = map f (Wire.last_n n l).
Proof. unfold Wire.last_n. now rewrite length_map, skipn_map. Qed.

Lemma cap_history_wire (h : list Wire.msg) :
  cap_history (map Wire.to_json h) = map Wire.typed (Wire.last_n 10 h).
Proof. now rewrite cap_history_last, last_n_map, flat_map_standardize_wire. Qed.

End ResolverFacts.


(** ** Retry and undo *)

Section ModeFacts.
Context {env : Collaborators}.

Lemma find_latest_app (a b : list BaseMessage) (idx : nat) (latest : option nat) :
  find_latest (a ++ b) idx latest
  = find_latest b (idx + length a) (find_latest a idx latest).
Proof.
  revert idx latest. induction a as [|m a IH]; intros idx latest; simpl.
  - now rewrite Nat.add_0_r.
  - rewrite IH. f_equal. lia.
Qed.

Lemma find_latest_no_user (l : list BaseMessage) (idx : nat) (latest : option nat) :
  Forall (fun m => is_human m = false) l -> find_latest l idx latest = latest.
Proof.
  intros H. revert idx latest.
  induction H as [|m l Hm _ IH]; intros idx latest; simpl; [reflexivity|].
  now rewrite Hm, IH.
Qed.

Lemma find_latest_last_user (before after : list BaseMessage) (c : content) (md : jval) :
  Forall (fun m => is_human m = false) after ->
  find_latest (before ++ HumanMessage c md :: after) 0 None = Some (length before).
Proof.
  intros H. rewrite find_latest_app. simpl.
  now rewrite find_latest_no_user.
Qed.

End ModeFacts.

(** C3, as the specification words it:
    every non-empty capped history would have a last user
    message to cut at. A capped history made of assistant entries only has
    none; retry then keeps the whole list and the incoming query. *)
Lemma retry_without_user_message :
  handle_mode (env := Script.env) "retry" "again" None
    [AIMessage (CStr "Hi there!") (JDict ∅)]
  = Ok ("again", [AIMessage (CStr "Hi there!") (JDict ∅)]) /\
  ~ retry_undo_as_worded (env := Script.env) "again"
      [AIMessage (CStr "Hi there!") (JDict ∅)].
Proof.
  split; [reflexivity|].
  intros (before & u & after & E & Hu & _).
  destruct before as [|m [|m' before]]; simpl in E.
  - injection E as <- _. discriminate.
  - injection E as _ E. discriminate.
  - injection E as _ E. discriminate.
Qed.

(** C3, as the code has it.
    When the capped history holds a user message, retry and
    undo cut the list in front of the last one, so that this message and
    everything behind it are gone; retry asks the content of that message
    again, undo asks nothing. When the capped history holds no user
    message, both modes keep the whole list; retry keeps the incoming
    query and undo still asks nothing. *)
Theorem retry_undo_truncate {env : Collaborators} (query : string)
    (edit_data : option EditData) :
  (forall (before after : list BaseMessage) (c : content) (md : jval),
     Forall (fun m => is_human m = false) after ->
     handle_mode "retry" query edit_data (before ++ HumanMessage c md :: after)
     = Ok (str_content c, before) /\
     handle_mode "undo" query edit_data (before ++ HumanMessage c md :: after)
     = Ok ("", before)) /\
  (forall convo : list BaseMessage,
     Forall (fun m => is_human m = false) convo ->
     handle_mode "retry" query edit_data convo = Ok (query, convo) /\
     handle_mode "undo" query edit_data convo = Ok ("", convo)).
Proof.
  split.
  - intros before after c md H.
    unfold handle_mode. cbn [String.eqb Ascii.eqb Bool.eqb orb andb].
    rewrite (find_latest_last_user before after c md H).
    rewrite list_lookup_middle by reflexivity.
    cbn [slice_to_opt msg_content]. rewrite take_app_length. split; reflexivity.
  - intros convo H.
    unfold handle_mode. cbn [String.eqb Ascii.eqb Bool.eqb orb andb].
    rewrite (find_latest_no_user convo 0 None H). split; reflexivity.
Qed.

Lemma retry_undo_truncate_witness :
  Forall (fun m => is_human m = false) [AIMessage (CStr "Hi there!") (JDict ∅)] /\
  handle_mode (env := Script.env) "retry" "ignored" None
    [HumanMessage (CStr "Hello") (JDict ∅); AIMessage (CStr "Hi there!") (JDict ∅)]
  = Ok ("Hello", []) /\
  handle_mode (env := Script.env) "undo" "ignored" None
    [HumanMessage (CStr "Hello") (JDict ∅); AIMessage (CStr "Hi there!") (JDict ∅)]
  = Ok ("", []).
Proof.
  assert (H : Forall (fun m => is_human m = false)
                [AIMessage (CStr "Hi there!") (JDict ∅)]).
  { constructor; [reflexivity | constructor]. }
  split; [exact H|].
  exact (proj1 (retry_undo_truncate (env := Script.env) "ignored" None)
           [] [AIMessage (CStr "Hi there!") (JDict ∅)] (CStr "Hello") (JDict ∅) H).
Defined.

(** ** The response stream assembler *)

Section StreamFacts.
Context {env : Collaborators}.

Lemma snapshots_app (base a b : list jval) :
  snapshots base (a ++ b) = snapshots base a ++ snapshots (base ++ a) b.
Proof.
  revert base. induction a as [|x a IH]; intros base; simpl.
  - now rewrite app_nil_r.
  - rewrite IH, <- app_assoc. reflexivity.
Qed.

Lemma length_snapshots (base new : list jval) :
  length (snapshots base new) = length new.
Proof.
  revert base. induction new as [|x new IH]; intros base; simpl; [reflexivity|].
  now rewrite IH.
Qed.

(** Every snapshot is the base followed by a prefix of what was
    appended: a yield carries the whole transcript so far. *)
Lemma snapshots_prefix (base new snap : list jval) :
  In snap (snapshots base new) ->
  exists k, snap = base ++ take k new /\ 0 < k <= length new.
Proof.
  revert base. induction new as [|x new IH]; intros base; simpl; [tauto|].
  intros [<- | H].
  - exists 1. split; [reflexivity | lia].
  - destruct (IH _ H) as (k & -> & Hk). exists (S k).
    split; [now rewrite <- app_assoc | lia].
Qed.

(** A message that passed the fingerprint test appends its entries and
    yields after each of them; presenting never raises. *)
Lemma present_spec (st : stream_state) (m : BaseMessage) :
  present st m
  = ({| st_transcript := st_transcript st ++ part_entries m;
        st_yielded := st_yielded st ++ snapshots (st_transcript st) (part_entries m);
        processed_hashes := processed_hashes st |}, None).
Proof.
  destruct st as [t y hs]. unfold part_entries.
  destruct m as [c md | [s | l] md | name c].
  - simpl. now rewrite !app_nil_r.
  - unfold present. cbv beta iota.
    destruct (TagFacts.separate_total s) as (r & f & E).
    unfold Tags.separate in E. rewrite E.
    destruct r, f; unfold append_yield; simpl;
      rewrite ?app_nil_r, <- ?app_assoc; reflexivity.
  - simpl. now rewrite !app_nil_r.
  - reflexivity.
Qed.

Lemma for_each_flat_map {A B S : Type} (body : S -> B -> S * option exn)
    (f : A -> list B) (s : S) (l : list A) :
  for_each (fun s x => for_each body s (f x)) s l = for_each body s (flat_map f l).
Proof.
  revert s. induction l as [|x l IH]; intros s; simpl; [reflexivity|].
  generalize (f x). intros parts. revert s.
  induction parts as [|p parts IHp]; intros s; simpl; [apply IH|].
  destruct (body s p) as [s' [e|]]; [reflexivity | apply IHp].
Qed.

Lemma process_step_for_each (count : nat) (q : string) (st : stream_state) (s : step) :
  process_step count q st s
  = for_each process_part st
      match s with
      | Some current_messages => valid_new_messages count q current_messages
      | None => []
      end.
Proof.
  destruct s as [[|m l]|]; try reflexivity.
  unfold valid_new_messages. now rewrite drop_nil.
Qed.

(** The two nested loops are one loop over the scanned messages. *)
Lemma for_each_steps (count : nat) (q : string) (st : stream_state) (ss : list step) :
  for_each (process_step count q) st ss
  = for_each process_part st (scanned count q ss).
Proof.
  unfold scanned. rewrite <- for_each_flat_map.
  revert st. induction ss as [|s ss IH]; intros st; simpl; [reflexivity|].
  rewrite process_step_for_each.
  destruct (for_each process_part st _) as [st' [e|]]; [reflexivity | apply IH].
Qed.

(** The loop appends the entries of the presented messages, in order,
    and yields once behind each entry. *)
Lemma for_each_parts (parts : list BaseMessage) (st : stream_state) :
  exists e hs,
    for_each process_part st parts
    = ({| st_transcript :=
            st_transcript st
            ++ flat_map part_entries (presented (processed_hashes st) parts);
          st_yielded :=
            st_yielded st
            ++ snapshots (st_transcript st)
                 (flat_map part_entries (presented (processed_hashes st) parts));
          processed_hashes := hs |}, e).
Proof.
  revert st. induction parts as [|m parts IH]; intros [t y hs].
  - exists None, hs. simpl. now rewrite !app_nil_r.
  - cbn [for_each presented processed_hashes st_transcript st_yielded].
    unfold process_part at 1.
    cbn [processed_hashes st_transcript st_yielded].
    destruct (msg_hash m) as [h|e].
    2:{ exists (Some e), hs. simpl. now rewrite !app_nil_r. }
    destruct (decide (h ∈ hs)) as [Hin|Hin].
    + apply (IH {| st_transcript := t; st_yielded := y; processed_hashes := hs |}).
    + rewrite present_spec.
      cbn [processed_hashes st_transcript st_yielded flat_map].
      destruct (IH {| st_transcript := t ++ part_entries m;
                      st_yielded := y ++ snapshots t (part_entries m);
                      processed_hashes := hs ∪ {[h]} |}) as (e & hs' & ->).
      exists e, hs'. simpl. now rewrite snapshots_app, <- !app_assoc.
Qed.

Lemma astream_response_spec (w : World) (transcript : list jval)
    (query selected_thread : string) :
  PyStr.is_empty query = false ->
  exists e,
    _astream_response w transcript query selected_thread
    = (transcript ++ streamed w query selected_thread,
       snapshots transcript (streamed w query selected_thread),
       e,
       {| sqlite_db := sqlite_db w;
          checkpointer :=
            memory_after
              (astream (checkpointer w) selected_thread
                 [HumanMessage (CStr query) (JDict ∅)]) |}).
Proof.
  intros Hq. unfold _astream_response, streamed, _get_checkpoint_state. rewrite Hq.
  rewrite for_each_steps.
  match goal with
  | |- context [for_each process_part ?st ?parts] =>
      destruct (for_each_parts parts st) as (e & hs & ->)
  end.
  simpl. destruct e as [e|]; eauto.
Qed.

Lemma astream_response_empty (w : World) (transcript : list jval)
    (selected_thread : string) :
  _astream_response w transcript "" selected_thread = (transcript, [], None, w).
Proof. reflexivity. Qed.

(** *** Deduplication *)

Lemma presented_sublist (seen : gset Z) (parts : list BaseMessage) :
  sublist (presented seen parts) parts.
Proof.
  revert seen. induction parts as [|m parts IH]; intros seen; simpl.
  - constructor.
  - destruct (msg_hash m) as [h|e]; [|apply sublist_nil_l].
    destruct (decide (h ∈ seen)); [apply sublist_cons | apply sublist_skip]; apply IH.
Qed.

Lemma presented_fresh (seen : gset Z) (parts : list BaseMessage) (m : BaseMessage) :
  In m (presented seen parts) ->
  exists h, msg_hash m = Ok h /\ h ∉ seen.
Proof.
  revert seen. induction parts as [|p parts IH]; intros seen; simpl; [tauto|].
  destruct (msg_hash p) as [h|e] eqn:Hp; [|simpl; tauto].
  destruct (decide (h ∈ seen)) as [Hin|Hin].
  - apply IH.
  - intros [<- | H]; [eauto|].
    destruct (IH _ H) as (h' & Hm & Hn). exists h'. split; [assumption | set_solver].
Qed.

Lemma msg_hash_fingerprint (m m' : BaseMessage) :
  fingerprint m = fingerprint m' -> msg_hash m = msg_hash m'.
Proof.
  unfold fingerprint, msg_hash. intros [= Ht Hc]. now rewrite Ht, Hc.
Qed.

(** No two presented messages have the same kind and content. *)
Lemma presented_NoDup (seen : gset Z) (parts : list BaseMessage) :
  NoDup (map fingerprint (presented seen parts)).
Proof.
  revert seen. induction parts as [|m parts IH]; intros seen; simpl.
  - constructor.
  - destruct (msg_hash m) as [h|e] eqn:Hm; [|constructor].
    destruct (decide (h ∈ seen)) as [Hin|Hin]; [apply IH|].
    simpl. constructor; [|apply IH].
    rewrite list_elem_of_In, in_map_iff. intros (m' & Hf & Hin').
    destruct (presented_fresh _ _ _ Hin') as (h' & Hm' & Hn).
    rewrite (msg_hash_fingerprint _ _ Hf), Hm in Hm'. injection Hm' as <-.
    set_solver.
Qed.

End StreamFacts.

(** ** The entry point *)

Section RunFacts.
Context {env : Collaborators}.
Variable codebase : string.

Lemma load_lookup (w : World) (load_type thread : string) (doc : Document) :
  load_all_from_sqlite codebase w load_type !! thread = Some doc <->
  sqlite_db w !! thread = Some doc /\ md_group doc = codebase +:+ "_" +:+ load_type.
Proof. unfold load_all_from_sqlite. apply map_lookup_filter_Some. Qed.

Lemma handle_mode_main (query : string) (ed : option EditData)
    (convo : list BaseMessage) :
  handle_mode "main" query ed convo = Ok (query, convo).
Proof. reflexivity. Qed.

Lemma handle_mode_edit_none (query : string) (convo : list BaseMessage) :
  handle_mode "edit" query None convo = Ok (query, convo).
Proof. reflexivity. Qed.

(** The resolver never writes to the persisted store. *)
Lemma resolver_store (w : World) (query thread mode : string) (ed : option EditData) :
  sqlite_db (snd (_update_current_state codebase w query thread mode ed)) = sqlite_db w.
Proof.
  unfold _update_current_state.
  destruct (load_all_from_sqlite codebase w "threads" !! thread) as [doc|]; [|reflexivity].
  destruct (loads (page_content doc)) as [stored|e]; [|reflexivity].
  destruct (cap_history stored) as [|m convo]; [reflexivity|].
  destruct (handle_mode mode query ed (m :: convo)) as [[q c]|e]; [|reflexivity].
  destruct (String.eqb mode "retry" || String.eqb mode "edit" || String.eqb mode "main");
    reflexivity.
Qed.

(** In main mode the edit payload is not looked at and the query comes
    back as it went in. *)
Lemma resolver_main (w : World) (query thread : string) (ed : option EditData) :
  _update_current_state codebase w query thread "main" ed
  = _update_current_state codebase w query thread "main" None.
Proof. reflexivity. Qed.

Lemma resolver_main_query (w w' : World) (query thread q src grp : string)
    (tv : list jval) :
  _update_current_state codebase w query thread "main" None = (Ok (q, tv, src, grp), w') ->
  q = query.
Proof.
  unfold _update_current_state.
  destruct (load_all_from_sqlite codebase w "threads" !! thread) as [doc|]; [|discriminate].
  destruct (loads (page_content doc)) as [stored|e]; [|discriminate].
  destruct (cap_history stored) as [|m convo]; [now intros [= <- _]|].
  rewrite handle_mode_main. now intros [= <- _].
Qed.

(** The assembler never writes to the persisted store. *)
Lemma stream_store (w : World) (transcript : list jval) (query thread : string) :
  sqlite_db (snd (_astream_response w transcript query thread)) = sqlite_db w.
Proof.
  unfold _astream_response. destruct (PyStr.is_empty query); [reflexivity|].
  destruct (for_each _ _ _) as [st [e|]]; reflexivity.
Qed.

(** The entry point, with the resolver's call written once for all
    modes. *)
Lemma run_unfold (w : World) (query thread mode : string) (ed : option EditData) :
  aget_agent_response codebase w query thread mode ed
  = match _update_current_state codebase w query thread mode ed with
    | (Raise e, w) => {| yields := []; outcome := Some e; world := w |}
    | (Ok (query, transcript, source, group), w) =>
        match _astream_response w transcript query thread with
        | (final, responses, Some e, w) =>
            {| yields := transcript :: responses; outcome := Some e; world := w |}
        | (final, responses, None, w) =>
            {| yields := transcript :: responses;
               outcome := None;
               world := _update_thread_history w final group source thread |}
        end
    end.
Proof.
  unfold aget_agent_response.
  destruct (String.eqb_spec mode "main") as [->|Hm]; [|reflexivity].
  rewrite (resolver_main w query thread ed).
  destruct (_update_current_state codebase w query thread "main" None)
    as [[[[[q tv] src] grp]|e] w'] eqn:E; [|reflexivity].
  now rewrite (resolver_main_query _ _ _ _ _ _ _ _ E).
Qed.

(** The resolver on a stored history of wire messages, in main mode. *)
Lemma resolver_main_wire (w : World) (query thread : string) (ed : option EditData)
    (doc : Document) (h : list Wire.msg) :
  load_all_from_sqlite codebase w "threads" !! thread = Some doc ->
  page_content doc = JsonArray (map Wire.to_json h) ->
  h <> [] ->
  _update_current_state codebase w query thread "main" ed
  = (Ok (query,
         map Wire.to_json (Wire.last_n 10 h)
         ++ (if PyStr.is_empty query then [] else [user_entry query]),
         md_source doc, md_group doc),
     update_state w thread (map Wire.typed (Wire.last_n 10 h))).
Proof.
  intros Hl Hp Hh. unfold _update_current_state. rewrite Hl, Hp. cbn [loads].
  rewrite cap_history_wire.
  assert (Hn : Wire.last_n 10 h <> []).
  { unfold Wire.last_n. intros E. apply (f_equal (@length _)) in E.
    rewrite length_drop in E. simpl in E.
    destruct h; [congruence | simpl in E; lia]. }
  destruct (Wire.last_n 10 h) as [|m l] eqn:El; [congruence|].
  cbn [map]. rewrite handle_mode_main.
  cbn [String.eqb Ascii.eqb Bool.eqb orb andb].
  change (Wire.typed m :: map Wire.typed l) with (map Wire.typed (m :: l)).
  rewrite flat_map_to_wire_typed.
  destruct (PyStr.is_empty query); [now rewrite app_nil_r | reflexivity].
Qed.

End RunFacts.

(** ** Every persisted transcript is a list of wire messages *)

Section WireInvariant.
Context {env : Collaborators}.
Variable codebase : string.

Lemma user_entry_wire (query : string) :
  user_entry query
  = Wire.to_json {| Wire.msg_role := Wire.User; Wire.msg_text := query;
                    Wire.msg_meta := <["title" := JStr "User Message"]> ∅ |}.
Proof. reflexivity. Qed.

Lemma part_entries_wire (m : BaseMessage) :
  exists l : list Wire.msg, part_entries m = map Wire.to_json l.
Proof.
  unfold part_entries. destruct m as [c md | [s | l] md | name c].
  - exists []. reflexivity.
  - unfold present. cbv beta iota.
    destruct (TagFacts.separate_total s) as (r & f & E).
    unfold Tags.separate in E. rewrite E.
    pose (think := {| Wire.msg_role := Wire.Assistant; Wire.msg_text := r;
                      Wire.msg_meta := <["title" := JStr "Assistant Thinking..."]>
                                         (<["status" := JStr "done"]> ∅) |}).
    pose (answer := {| Wire.msg_role := Wire.Assistant; Wire.msg_text := f;
                       Wire.msg_meta := <["title" := JStr "Assistant Message"]> ∅ |}).
    destruct r, f;
      [exists [] | exists [answer] | exists [think] | exists [think; answer]];
      reflexivity.
  - exists []. reflexivity.
  - eexists [{| Wire.msg_role := Wire.Assistant; Wire.msg_text := _;
                Wire.msg_meta := <["title" := JStr "Tool call output"]>
                                   (<["status" := JStr "done"]> ∅) |}].
    reflexivity.
Qed.

Lemma flat_map_part_entries_wire (parts : list BaseMessage) :
  exists l : list Wire.msg, flat_map part_entries parts = map Wire.to_json l.
Proof.
  induction parts as [|m parts (l & IH)]; [now exists []|].
  destruct (part_entries_wire m) as (l0 & E). exists (l0 ++ l).
  cbn [flat_map]. now rewrite E, IH, map_app.
Qed.

Lemma handle_mode_wire (mode query : string) (ed : option EditData)
    (h : list Wire.msg) (q : string) (convo : list BaseMessage) :
  handle_mode mode query ed (map Wire.typed h) = Ok (q, convo) ->
  exists h', convo = map Wire.typed h'.
Proof.
  unfold handle_mode.
  destruct (String.eqb mode "retry" || String.eqb mode "undo").
  - destruct (find_latest (map Wire.typed h) 0 None) as [i|]; cbn [slice_to_opt].
    + destruct (if String.eqb mode "retry" then _ else _); [|discriminate].
      intros [= _ <-]. exists (take i h). apply firstn_map.
    + destruct (if String.eqb mode "retry" then _ else _); [|discriminate].
      intros [= _ <-]. now exists h.
  - destruct (String.eqb mode "edit"); [|intros [= _ <-]; now exists h].
    destruct ed as [[[i | r c] v]|]; cbn [index value]; intros [= _ <-].
    + unfold slice_to. destruct (0 <=? i)%Z; eexists; apply firstn_map.
    + now exists h.
    + now exists h.
Qed.

(** In every mode the view the resolver returns is a list of wire
    messages. *)
Lemma resolver_wire (w w' : World) (query thread mode : string) (ed : option EditData)
    (doc : Document) (h : list Wire.msg) (q src grp : string) (view : list jval) :
  load_all_from_sqlite codebase w "threads" !! thread = Some doc ->
  page_content doc = JsonArray (map Wire.to_json h) ->
  _update_current_state codebase w query thread mode ed = (Ok (q, view, src, grp), w') ->
  src = md_source doc /\ grp = md_group doc /\
  exists h', view = map Wire.to_json h'.
Proof.
  intros Hl Hp. unfold _update_current_state. rewrite Hl, Hp. cbn [loads].
  rewrite cap_history_wire.
  destruct (map Wire.typed (Wire.last_n 10 h)) as [|m convo] eqn:Ec.
  - intros [= <- <- <- <- _]. split; [reflexivity|]. split; [reflexivity|].
    destruct (PyStr.is_empty query); [now exists []|].
    eexists [_]. cbn [flat_map app map]. now rewrite user_entry_wire.
  - rewrite <- Ec.
    destruct (handle_mode mode query ed (map Wire.typed (Wire.last_n 10 h)))
      as [[q0 c0]|e] eqn:Eh; [|discriminate].
    destruct (handle_mode_wire _ _ _ _ _ _ Eh) as (h' & ->).
    intros [= <- <- <- <- _]. split; [reflexivity|]. split; [reflexivity|].
    rewrite flat_map_to_wire_typed.
    destruct (PyStr.is_empty q0); [now exists h'|].
    eexists (h' ++ [_]). now rewrite map_app, user_entry_wire.
Qed.

(** A run that ends without an exception leaves a list of wire messages
    under the thread, whatever the mode: the store never holds anything
    else once it holds wire messages. *)
Lemma run_writes_wire (w : World) (query thread mode : string) (ed : option EditData)
    (doc : Document) (h : list Wire.msg) :
  load_all_from_sqlite codebase w "threads" !! thread = Some doc ->
  page_content doc = JsonArray (map Wire.to_json h) ->
  outcome (aget_agent_response codebase w query thread mode ed) = None ->
  exists h' : list Wire.msg,
    sqlite_db (world (aget_agent_response codebase w query thread mode ed)) !! thread
    = Some {| page_content := JsonArray (map Wire.to_json h');
              md_source := md_source doc; md_group := md_group doc |}.
Proof.
  intros Hl Hp. rewrite run_unfold.
  destruct (_update_current_state codebase w query thread mode ed)
    as [[[[[q view] src] grp]|e] w1] eqn:Er; [|discriminate].
  destruct (resolver_wire _ _ _ _ _ _ _ _ _ _ _ _ Hl Hp Er) as (-> & -> & h1 & ->).
  destruct (PyStr.is_empty q) eqn:Hq.
  - destruct q; [|discriminate]. rewrite astream_response_empty. intros _.
    exists h1. cbn. apply lookup_insert_eq.
  - destruct (astream_response_spec w1 (map Wire.to_json h1) q thread Hq) as (e & ->).
    destruct e; [discriminate|]. intros _.
    unfold streamed.
    match goal with
    | |- context [flat_map part_entries ?parts] =>
        destruct (flat_map_part_entries_wire parts) as (h2 & ->)
    end.
    exists (h1 ++ h2). cbn. rewrite map_app. apply lookup_insert_eq.
Qed.

End WireInvariant.

(** ** Statements about whole turns *)

(** C7. One call of the assembler presents a sequence of the scanned
    messages in which no fingerprint (kind and content) occurs twice, and
    the transcript grows by exactly the entries of these messages, with
    one yield behind each entry. A message that comes again in a later
    cumulative step therefore adds nothing: both its fingerprint and its
    entries are there at most once. *)
Theorem fingerprint_presented_once {env : Collaborators} (w : World)
    (transcript : list jval) (query selected_thread : string) :
  exists (kept : list BaseMessage) (e : option exn) (w' : World),
    sublist kept
      (scanned
         (match checkpointer w !! selected_thread with
          | Some msgs => length msgs
          | None => 0
          end) query
         (steps (astream (checkpointer w) selected_thread
                   [HumanMessage (CStr query) (JDict ∅)]))) /\
    NoDup (map fingerprint kept) /\
    _astream_response w transcript query selected_thread
    = (transcript ++ flat_map part_entries kept,
       snapshots transcript (flat_map part_entries kept), e, w').
Proof.
  destruct (PyStr.is_empty query) eqn:Hq.
  - exists [], None, w. split; [apply sublist_nil_l|]. split; [constructor|].
    unfold _astream_response. rewrite Hq. simpl. now rewrite app_nil_r.
  - destruct (astream_response_spec w transcript query selected_thread Hq) as (e & E).
    eexists _, e, _. split; [apply presented_sublist|].
    split; [apply presented_NoDup|]. exact E.
Qed.

(** The scripted engine sends the tool result in its second and in its
    third step; the transcript gets it once. *)
Example tool_result_in_two_steps :
  fst (fst (fst (_astream_response (env := Script.env) Script.world [] "Hi" "new")))
  = flat_map (part_entries (env := Script.env)) [Script.tool_reply; Script.reply].
Proof. reflexivity. Qed.

(** C8, as the specification words it:
    the content of the entry for a tool message would
    start with the word Content. In the code it starts with a line
    break. *)
Lemma tool_entry_not_as_worded :
  st_transcript
    (fst (process_part (env := Script.env)
            {| st_transcript := []; st_yielded := []; processed_hashes := ∅ |}
            (ToolMessage (Some "search") (CStr "3 hits"))))
  = [wire_entry "assistant"
       (JStr (PyStr.newline +:+ "Content from `search` toolcall:"
              +:+ PyStr.newline +:+ "3 hits"))
       (JDict (<["title" := JStr "Tool call output"]> (<["status" := JStr "done"]> ∅)))]
  /\
  st_transcript
    (fst (process_part (env := Script.env)
            {| st_transcript := []; st_yielded := []; processed_hashes := ∅ |}
            (ToolMessage (Some "search") (CStr "3 hits"))))
  <> [wire_entry "assistant"
        (JStr ("Content from `search` toolcall:" +:+ PyStr.newline +:+ "3 hits"))
        (JDict (<["title" := JStr "Tool call output"]> (<["status" := JStr "done"]> ∅)))].
Proof.
  split; [reflexivity|].
  intros H.
  apply (f_equal (fun l => match l with
                           | [JDict d] => d !! "content"
                           | _ => None
                           end)) in H.
  vm_compute in H. discriminate.
Qed.

(** C8, as the code has it.
    A tool message whose fingerprint is new appends one
    entry and yields the transcript with it: role assistant, metadata
    title "Tool call output" and status "done", and as content a line
    break, then "Content from `", the tool's name, "` toolcall:", a line
    break and the tool's content, with nothing else before or behind. *)
Theorem tool_message_entry {env : Collaborators} (st : stream_state)
    (tool_name tool_content : string) :
  py_hash TToolMessage tool_content ∉ processed_hashes st ->
  process_part st (ToolMessage (Some tool_name) (CStr tool_content))
  = (let entry :=
       JDict (<["role" := JStr "assistant"]>
               (<["content" :=
                    JStr (PyStr.newline +:+ "Content from `" +:+ tool_name
                          +:+ "` toolcall:" +:+ PyStr.newline +:+ tool_content)]>
                 (<["metadata" :=
                      JDict (<["title" := JStr "Tool call output"]>
                              (<["status" := JStr "done"]> ∅))]> ∅))) in
     ({| st_transcript := st_transcript st ++ [entry];
         st_yielded := st_yielded st ++ [st_transcript st ++ [entry]];
         processed_hashes := processed_hashes st ∪ {[py_hash TToolMessage tool_content]} |},
      None)).
Proof.
  intros Hn. unfold process_part. cbn [msg_hash msg_content type_of].
  destruct (decide (py_hash TToolMessage tool_content ∈ processed_hashes st));
    [contradiction | reflexivity].
Qed.

Lemma tool_message_entry_witness :
  (py_hash (Collaborators := Script.env) TToolMessage "3 hits" ∉ (∅ : gset Z)) /\
  process_part (env := Script.env)
    {| st_transcript := []; st_yielded := []; processed_hashes := ∅ |}
    (ToolMessage (Some "search") (CStr "3 hits"))
  = (let entry :=
       JDict (<["role" := JStr "assistant"]>
               (<["content" :=
                    JStr (PyStr.newline +:+ "Content from `" +:+ "search"
                          +:+ "` toolcall:" +:+ PyStr.newline +:+ "3 hits")]>
                 (<["metadata" :=
                      JDict (<["title" := JStr "Tool call output"]>
                              (<["status" := JStr "done"]> ∅))]> ∅))) in
     ({| st_transcript := [] ++ [entry];
         st_yielded := [] ++ [[] ++ [entry]];
         processed_hashes := ∅ ∪ {[py_hash (Collaborators := Script.env) TToolMessage "3 hits"]} |},
      None)).
Proof.
  assert (H : py_hash (Collaborators := Script.env) TToolMessage "3 hits" ∉ (∅ : gset Z)).
  { apply not_elem_of_empty. }
  split; [exact H|].
  exact (tool_message_entry (env := Script.env)
           {| st_transcript := []; st_yielded := []; processed_hashes := ∅ |}
           "search" "3 hits" H).
Defined.

(** C5, as the specification words it:
    with an empty persisted history the returned view
    would be empty whatever the query. The first message of a new thread
    is echoed: the view holds the user entry of the query. *)
Lemma empty_history_view_not_empty :
  _update_current_state (env := Script.env) "demo" Script.world "Hello" "new" "main" None
  = (Ok ("Hello", [user_entry "Hello"], "chat", "demo_threads"), Script.world) /\
  [user_entry "Hello"] <> [].
Proof. split; [reflexivity | discriminate]. Qed.

(** C5, as the code has it.
    When the persisted history of the thread is empty, the
    resolver leaves the world as it is in every mode, working state
    included, and gives the query back unchanged; the view is empty for
    an empty query and otherwise holds the user entry of the query and
    nothing else. *)
Theorem empty_history_resolve {env : Collaborators} (codebase : string) (w : World)
    (query selected_thread mode : string) (edit_data : option EditData)
    (doc : Document) :
  load_all_from_sqlite codebase w "threads" !! selected_thread = Some doc ->
  page_content doc = JsonArray [] ->
  _update_current_state codebase w query selected_thread mode edit_data
  = (Ok (query,
         (if PyStr.is_empty query then [] else [user_entry query]),
         md_source doc, md_group doc),
     w).
Proof.
  intros Hl Hp. unfold _update_current_state. rewrite Hl, Hp. cbn.
  destruct (PyStr.is_empty query); reflexivity.
Qed.

Lemma empty_history_resolve_witness :
  load_all_from_sqlite "demo" Script.world "threads" !! "new"
  = Some (Script.thread_doc []) /\
  page_content (Script.thread_doc []) = JsonArray [] /\
  _update_current_state (env := Script.env) "demo" Script.world "" "new" "undo" None
  = (Ok ("", [], "chat", "demo_threads"), Script.world).
Proof.
  assert (H : load_all_from_sqlite "demo" Script.world "threads" !! "new"
              = Some (Script.thread_doc [])) by reflexivity.
  split; [exact H|]. split; [reflexivity|].
  exact (empty_history_resolve (env := Script.env) "demo" Script.world "" "new" "undo"
           None (Script.thread_doc []) H eq_refl).
Defined.

(** C6, as the specification words it:
    a run in edit mode without an edit payload would
    raise. The run below ends without an exception and writes the new
    turn. *)
Lemma edit_without_payload_succeeds :
  outcome (aget_agent_response (env := Script.env) "demo" Script.world
             "Hi" "short" "edit" None) = None /\
  fst (_update_current_state (env := Script.env) "demo" Script.world
         "Hi" "short" "edit" None)
  = Ok ("Hi", map Wire.to_json [Script.hello; Script.hi_there] ++ [user_entry "Hi"],
        "chat", "demo_threads").
Proof. split; reflexivity. Qed.

(** C6, as the code has it.
    Edit mode without an edit payload raises nothing for the missing
    payload: the resolver and the whole run do exactly what they do in
    main mode for the same query. *)
Theorem edit_without_payload {env : Collaborators} (codebase : string) (w : World)
    (query selected_thread : string) :
  _update_current_state codebase w query selected_thread "edit" None
  = _update_current_state codebase w query selected_thread "main" None /\
  aget_agent_response codebase w query selected_thread "edit" None
  = aget_agent_response codebase w query selected_thread "main" None.
Proof.
  assert (E : _update_current_state codebase w query selected_thread "edit" None
              = _update_current_state codebase w query selected_thread "main" None)
    by reflexivity.
  split; [exact E|].
  rewrite !run_unfold, E. reflexivity.
Qed.

(** C2. When the resolver raises, the run raises the same exception,
    yields nothing and the persisted store is what it was. When the
    resolver returns and the assembler raises, the run raises that
    exception and the persisted store is what it was. In general, a run
    that ends with an exception has not written to the persisted store. *)
Theorem failed_run_keeps_store {env : Collaborators} (codebase : string) (w : World)
    (query selected_thread mode : string) (edit_data : option EditData) :
  (forall e w1,
     _update_current_state codebase w query selected_thread mode edit_data
     = (Raise e, w1) ->
     outcome (aget_agent_response codebase w query selected_thread mode edit_data)
     = Some e /\
     yields (aget_agent_response codebase w query selected_thread mode edit_data) = [] /\
     sqlite_db (world (aget_agent_response codebase w query selected_thread mode edit_data))
     = sqlite_db w) /\
  (forall q view source group w1 final responses e w2,
     _update_current_state codebase w query selected_thread mode edit_data
     = (Ok (q, view, source, group), w1) ->
     _astream_response w1 view q selected_thread = (final, responses, Some e, w2) ->
     outcome (aget_agent_response codebase w query selected_thread mode edit_data)
     = Some e /\
     sqlite_db (world (aget_agent_response codebase w query selected_thread mode edit_data))
     = sqlite_db w) /\
  (forall e,
     outcome (aget_agent_response codebase w query selected_thread mode edit_data)
     = Some e ->
     sqlite_db (world (aget_agent_response codebase w query selected_thread mode edit_data))
     = sqlite_db w).
Proof.
  pose proof (resolver_store codebase w query selected_thread mode edit_data) as Hr.
  rewrite run_unfold.
  destruct (_update_current_state codebase w query selected_thread mode edit_data)
    as [[[[[q view] source] group]|e0] w1]; simpl in Hr.
  - pose proof (stream_store w1 view q selected_thread) as Hs.
    destruct (_astream_response w1 view q selected_thread)
      as [[[final responses] [e1|]] w2] eqn:Es; simpl in Hs.
    + split; [discriminate|]. split.
      * intros ? ? ? ? ? ? ? ? ? [= <- <- <- <- <-] Es'.
        rewrite Es in Es'. injection Es' as <- <- <- <-.
        split; [reflexivity | simpl; congruence].
      * intros e _. simpl. congruence.
    + split; [discriminate|]. split.
      * intros ? ? ? ? ? ? ? ? ? [= <- <- <- <- <-] Es'.
        rewrite Es in Es'. discriminate.
      * discriminate.
  - split; [|split; [discriminate|]].
    + intros e w' [= <- <-]. simpl. auto.
    + intros e _. exact Hr.
Qed.

Lemma failed_run_keeps_store_witness :
  _update_current_state (env := Script.env) "demo" Script.world "Hi" "broken" "main" None
  = (Raise (JSONDecodeError "[{"), Script.world) /\
  outcome (aget_agent_response (env := Script.env) "demo" Script.world
             "Hi" "broken" "main" None)
  = Some (JSONDecodeError "[{") /\
  yields (aget_agent_response (env := Script.env) "demo" Script.world
            "Hi" "broken" "main" None) = [] /\
  sqlite_db (world (aget_agent_response (env := Script.env) "demo" Script.world
                      "Hi" "broken" "main" None))
  = sqlite_db Script.world.
Proof.
  assert (H : _update_current_state (env := Script.env) "demo" Script.world
                "Hi" "broken" "main" None
              = (Raise (JSONDecodeError "[{"), Script.world)) by reflexivity.
  split; [exact H|].
  exact (proj1 (failed_run_keeps_store (env := Script.env) "demo" Script.world
                  "Hi" "broken" "main" None) _ _ H).
Defined.

(** The engine fails in the middle of a turn: the snapshots yielded so
    far stay with the caller, the exception comes through and the store
    is not written. *)
Example engine_failure_propagates :
  length (yields (aget_agent_response (env := Script.env) "demo" Script.world
                    "boom" "short" "main" None)) = 1 /\
  outcome (aget_agent_response (env := Script.env) "demo" Script.world
             "boom" "short" "main" None)
  = Some (EngineError "boom") /\
  sqlite_db (world (aget_agent_response (env := Script.env) "demo" Script.world
                      "boom" "short" "main" None))
  = sqlite_db Script.world.
Proof. repeat split. Qed.

(** C1. A thread whose persisted history holds more than ten wire
    messages, after one main-mode turn that ends without an exception,
    holds exactly the last ten of them followed by the entries of the new
    turn (the echoed user entry and every streamed entry), under the same
    source and group; the earlier messages are gone, and the last
    snapshot the caller received is this transcript. *)
Theorem main_turn_keeps_last_ten {env : Collaborators} (codebase : string) (w : World)
    (query selected_thread : string) (edit_data : option EditData)
    (doc : Document) (h : list Wire.msg) :
  load_all_from_sqlite codebase w "threads" !! selected_thread = Some doc ->
  page_content doc = JsonArray (map Wire.to_json h) ->
  10 < length h ->
  outcome (aget_agent_response codebase w query selected_thread "main" edit_data) = None ->
  let w1 := update_state w selected_thread (map Wire.typed (Wire.last_n 10 h)) in
  let persisted :=
    map Wire.to_json (Wire.last_n 10 h) ++ new_turn w1 query selected_thread in
  sqlite_db (world (aget_agent_response codebase w query selected_thread "main" edit_data))
  = <[selected_thread :=
        {| page_content := JsonArray persisted;
           md_source := md_source doc;
           md_group := md_group doc |}]> (sqlite_db w) /\
  length persisted = 10 + length (new_turn w1 query selected_thread) /\
  last (yields (aget_agent_response codebase w query selected_thread "main" edit_data))
  = Some persisted.
Proof.
  intros Hl Hp Hlen Hout w1 persisted.
  assert (Hh : h <> []) by (intros ->; simpl in Hlen; lia).
  assert (Hten : length (map Wire.to_json (Wire.last_n 10 h)) = 10).
  { unfold Wire.last_n. rewrite length_map, length_drop. lia. }
  revert Hout. rewrite run_unfold.
  rewrite (resolver_main_wire codebase w query selected_thread edit_data doc h Hl Hp Hh).
  fold w1. subst persisted. unfold new_turn.
  destruct (PyStr.is_empty query) eqn:Hq.
  - destruct query; [|discriminate]. rewrite astream_response_empty.
    intros _. cbn [world yields]. unfold _update_thread_history. cbn [sqlite_db update_state w1].
    rewrite !app_nil_r. repeat split; try reflexivity. simpl. lia.
  - destruct (astream_response_spec w1
                (map Wire.to_json (Wire.last_n 10 h) ++ [user_entry query])
                query selected_thread Hq) as (e & ->).
    destruct e as [e|]; [discriminate|]. intros _.
    cbn [world yields]. unfold _update_thread_history. cbn [sqlite_db update_state w1].
    rewrite <- app_assoc. cbn [app].
    split; [reflexivity|]. split; [rewrite length_app; lia|].
    destruct (streamed w1 query selected_thread) as [|x l] using rev_ind.
    + reflexivity.
    + rewrite snapshots_app. simpl. rewrite app_comm_cons, last_snoc.
      now rewrite <- !app_assoc.
Qed.

Lemma main_turn_keeps_last_ten_witness :
  load_all_from_sqlite "demo" Script.world "threads" !! "long"
  = Some (Script.thread_doc (map Wire.to_json Script.long_history)) /\
  10 < length Script.long_history /\
  outcome (aget_agent_response (env := Script.env) "demo" Script.world
             "Hi" "long" "main" None) = None /\
  sqlite_db (world (aget_agent_response (env := Script.env) "demo" Script.world
                      "Hi" "long" "main" None))
  = <["long" :=
        {| page_content :=
             JsonArray
               (map Wire.to_json (Wire.last_n 10 Script.long_history)
                ++ new_turn (env := Script.env)
                     (update_state (env := Script.env) Script.world "long"
                        (map Wire.typed (Wire.last_n 10 Script.long_history)))
                     "Hi" "long");
           md_source := "chat";
           md_group := "demo_threads" |}]> (sqlite_db Script.world).
Proof.
  assert (H1 : load_all_from_sqlite "demo" Script.world "threads" !! "long"
               = Some (Script.thread_doc (map Wire.to_json Script.long_history)))
    by reflexivity.
  assert (H2 : 10 < length Script.long_history) by (vm_compute; lia).
  assert (H3 : outcome (aget_agent_response (env := Script.env) "demo" Script.world
                          "Hi" "long" "main" None) = None) by reflexivity.
  split; [exact H1|]. split; [exact H2|]. split; [exact H3|].
  exact (proj1 (main_turn_keeps_last_ten (env := Script.env) "demo" Script.world
                  "Hi" "long" None _ Script.long_history H1 eq_refl H2 H3)).
Defined.

(** The same turn, written out: the messages A and B are gone, C to L
    stay, and the turn adds the echoed query, the tool result, the
    reasoning and the answer. *)
Example main_turn_on_long_history :
  page_content
    <$> sqlite_db (world (aget_agent_response (env := Script.env) "demo" Script.world
                            "Hi" "long" "main" None)) !! "long"
  = Some (JsonArray
            (map Wire.to_json (drop 2 Script.long_history)
             ++ [user_entry "Hi";
                 tool_entry (PyStr.newline +:+ "Content from `search` toolcall:"
                             +:+ PyStr.newline +:+ "3 hits");
                 thinking_entry "plan";
                 message_entry "Hello!"])).
Proof. reflexivity. Qed.

(** ** The scenarios of the repository's tests *)

(** Undo on the two-message history: nothing to ask, nothing left, and
    the working state is not touched. *)
Example scenario_undo :
  _update_current_state (env := Script.env) "demo" Script.world "Hello" "short" "undo" None
  = (Ok ("", [], "chat", "demo_threads"), Script.world).
Proof. reflexivity. Qed.

(** Retry on the same history: the user message is asked again. *)
Example scenario_retry :
  fst (_update_current_state (env := Script.env) "demo" Script.world
         "Hello" "short" "retry" None)
  = Ok ("Hello", [user_entry "Hello"], "chat", "demo_threads").
Proof. reflexivity. Qed.

(** Edit with index 1 and a new value: the first message stays and the
    view ends with the edited user entry. *)
Example scenario_edit :
  fst (_update_current_state (env := Script.env) "demo" Script.world "Hello" "short" "edit"
         (Some {| index := IndexInt 1; value := "Edited message" |}))
  = Ok ("Edited message",
        [Wire.to_json Script.hello; user_entry "Edited message"],
        "chat", "demo_threads").
Proof. reflexivity. Qed.

(** Retry on a thread whose capped history holds no user message: the
    incoming query is asked and the whole history stays in the view. *)
Example scenario_retry_without_user :
  fst (_update_current_state (env := Script.env) "demo" Script.world
         "again" "busy" "retry" None)
  = Ok ("again", map Wire.to_json Script.busy_history ++ [user_entry "again"],
        "chat", "demo_threads").
Proof. reflexivity. Qed.

(** * Further properties of the code *)

(** ** The tag separator, the remaining branches *)

Module TrimFacts.
Import PyStr TagSpec StrFacts.

Lemma lstrip_fixed_cons (c : ascii) (s : string) :
  lstrip (String c s) = String c s -> isspace c = false.
Proof.
  simpl. destruct (isspace c); [|reflexivity].
  intros E. pose proof (length_lstrip s) as H. rewrite E in H. simpl in H. lia.
Qed.

Lemma lstrip_rstrip (t : string) : lstrip t = t -> lstrip (rstrip t) = rstrip t.
Proof.
  destruct t as [|c t]; [reflexivity|].
  intros H. apply lstrip_fixed_cons in H. simpl. rewrite H. simpl. now rewrite H.
Qed.

(** Trimming twice is trimming once. *)
Lemma strip_idem (s : string) : strip (strip s) = strip s.
Proof.
  unfold strip. rewrite lstrip_rstrip by apply lstrip_idem. apply rstrip_idem.
Qed.

Lemma partition_unique (pat s a b a' b' : string) :
  partition pat s = Some (a, b) -> first_occurrence pat s a' b' -> a = a' /\ b = b'.
Proof.
  intros H H'. apply partition_first in H.
  exact (first_occurrence_unique _ _ _ _ _ _ H H').
Qed.

End TrimFacts.

(** X2. A text with an opening tag and no closed block: what follows the
    first opening tag is trimmed and cut at its first line break. With a
    line break, the reasoning is the trimmed first line and the final
    part the trimmed remainder; without one, the reasoning is empty and
    the final part is the trimmed text behind the tag. What stands in
    front of the tag is dropped in both cases. *)
Theorem separate_unclosed (text before tail : string) :
  ~ TagSpec.closed_block text ->
  TagSpec.first_occurrence Tags.open_tag text before tail ->
  (forall line rest,
     TagSpec.first_occurrence PyStr.newline (PyStr.strip tail) line rest ->
     Tags.separate text = Ok (PyStr.strip line, PyStr.strip rest)) /\
  (~ TagSpec.occurs PyStr.newline (PyStr.strip tail) ->
   Tags.separate text = Ok ("", PyStr.strip tail)).
Proof.
  intros Hn Ho. apply StrFacts.search_closed_None in Hn.
  destruct (StrFacts.partition_complete Tags.open_tag text) as (b & t & Hp).
  { exists before, tail. apply Ho. }
  destruct (TrimFacts.partition_unique _ _ _ _ _ _ Hp Ho) as [-> ->].
  unfold Tags.separate, Tags._separate_ai_messages. rewrite Hn, Hp.
  unfold PyStr.split_newline_1. split.
  - intros line rest Hl.
    destruct (StrFacts.partition_complete PyStr.newline (PyStr.strip tail))
      as (l0 & l1 & Hq).
    { exists line, rest. apply Hl. }
    destruct (TrimFacts.partition_unique _ _ _ _ _ _ Hq Hl) as [-> ->].
    now rewrite Hq.
  - intros Hl. apply StrFacts.partition_None in Hl. rewrite Hl.
    now rewrite TrimFacts.strip_idem.
Qed.

Lemma separate_unclosed_witness :
  ~ TagSpec.closed_block Texts.unclosed /\
  TagSpec.first_occurrence Tags.open_tag Texts.unclosed "intro " Texts.unclosed_tail /\
  Tags.separate Texts.unclosed = Ok ("why", "answer").
Proof.
  assert (Hn : ~ TagSpec.closed_block Texts.unclosed)
    by (apply StrFacts.search_closed_None; reflexivity).
  assert (Ho : TagSpec.first_occurrence Tags.open_tag Texts.unclosed "intro "
                 Texts.unclosed_tail)
    by (apply StrFacts.partition_first; reflexivity).
  split; [exact Hn|]. split; [exact Ho|].
  apply (proj1 (separate_unclosed _ _ _ Hn Ho) "why" " answer").
  apply StrFacts.partition_first. reflexivity.
Defined.

(** X3. Whenever the text holds an opening tag, both parts come back
    trimmed: neither starts or ends with white space. (Without an
    opening tag the text is returned as it is.) *)
Theorem separate_parts_trimmed (text reasoning final : string) :
  TagSpec.occurs Tags.open_tag text ->
  Tags.separate text = Ok (reasoning, final) ->
  PyStr.strip reasoning = reasoning /\ PyStr.strip final = final.
Proof.
  intros Ho. unfold Tags.separate, Tags._separate_ai_messages.
  destruct (Tags.search_closed text) as [[[b i] a]|].
  - intros [= <- <-]. split; apply TrimFacts.strip_idem.
  - destruct (StrFacts.partition_complete _ _ Ho) as (b & t & ->).
    unfold PyStr.split_newline_1.
    destruct (PyStr.partition PyStr.newline (PyStr.strip t)) as [[l0 l1]|];
      intros [= <- <-]; split; try apply TrimFacts.strip_idem; reflexivity.
Qed.

Lemma separate_parts_trimmed_witness :
  TagSpec.occurs Tags.open_tag "  <think> a </think>  b  " /\
  Tags.separate "  <think> a </think>  b  " = Ok ("a", "b") /\
  PyStr.strip "a" = "a" /\ PyStr.strip "b" = "b".
Proof.
  assert (Ho : TagSpec.occurs Tags.open_tag "  <think> a </think>  b  ").
  { exists "  ", " a </think>  b  ". reflexivity. }
  assert (E : Tags.separate "  <think> a </think>  b  " = Ok ("a", "b"))
    by reflexivity.
  split; [exact Ho|]. split; [exact E|].
  exact (separate_parts_trimmed _ _ _ Ho E).
Defined.

(** ** The mode resolver, errors, bounds and effects *)

Section ResolverMore.
Context {env : Collaborators}.
Variable codebase : string.

Lemma find_latest_bound (l : list BaseMessage) (idx : nat) (latest : option nat) (i : nat) :
  find_latest l idx latest = Some i ->
  latest = Some i \/ idx <= i < idx + length l.
Proof.
  revert idx latest. induction l as [|m l IH]; intros idx latest; simpl.
  - now left.
  - intros H. destruct (IH _ _ H) as [E | Hb]; [|right; lia].
    destruct (is_human m); [|now left].
    injection E as <-. right. lia.
Qed.

(** The mode handling never raises: the index of the latest user message
    is an index of the list. *)
Lemma handle_mode_ok (mode query : string) (ed : option EditData)
    (convo : list BaseMessage) :
  exists q c, handle_mode mode query ed convo = Ok (q, c) /\ length c <= length convo.
Proof.
  unfold handle_mode.
  destruct (String.eqb mode "retry" || String.eqb mode "undo").
  - destruct (find_latest convo 0 None) as [i|] eqn:Ef; cbn [slice_to_opt].
    + destruct (find_latest_bound _ _ _ _ Ef) as [|Hi]; [discriminate|].
      destruct (lookup_lt_is_Some_2 convo i) as [item Hitem]; [lia|]. rewrite Hitem.
      destruct (String.eqb mode "retry"); [|destruct (String.eqb mode "undo")];
        eexists _, _; (split; [reflexivity | rewrite length_take; lia]).
    + destruct (String.eqb mode "retry"); [|destruct (String.eqb mode "undo")];
        eexists _, _; (split; [reflexivity | lia]).
  - destruct (String.eqb mode "edit"); [|eexists _, _; split; [reflexivity | lia]].
    destruct ed as [[[i | r c] v]|]; cbn [index value];
      eexists _, _; (split; [reflexivity|]); try lia.
    unfold slice_to. destruct (0 <=? i)%Z; rewrite length_take; lia.
Qed.

Lemma length_cap_history (stored : list jval) : length (cap_history stored) <= 10.
Proof.
  rewrite cap_history_last, length_flat_map_standardize.
  etransitivity; [apply List.filter_length_le|].
  unfold Wire.last_n. rewrite length_drop. lia.
Qed.

Lemma length_flat_map_to_wire (convo : list BaseMessage) :
  length (flat_map to_wire convo) <= length convo.
Proof.
  induction convo as [|m convo IH]; [reflexivity|].
  cbn [flat_map]. rewrite length_app. destruct m; simpl; lia.
Qed.

Lemma load_lookup_None (w : World) (load_type thread : string) :
  load_all_from_sqlite codebase w load_type !! thread = None <->
  forall doc, sqlite_db w !! thread = Some doc ->
              md_group doc <> codebase +:+ "_" +:+ load_type.
Proof.
  split.
  - intros Hn doc Hd Hg.
    assert (load_all_from_sqlite codebase w load_type !! thread = Some doc) as E
      by (apply load_lookup; auto).
    congruence.
  - intros H.
    destruct (load_all_from_sqlite codebase w load_type !! thread) as [doc|] eqn:E;
      [|reflexivity].
    apply load_lookup in E as [Hd Hg]. exfalso. exact (H doc Hd Hg).
Qed.

End ResolverMore.

(** X4. Two ways in which the resolver raises, and one step that
    never does. When the store holds no document under the thread id in
    the group of this codebase's chat threads (none at all, or only a
    row of another group), the resolver raises the KeyError of the key
    source. When the document is there and its text is not JSON, it
    raises the decoding error. The mode handling never raises on a typed
    history, whatever the mode and the payload, and never makes the
    history longer. *)
Theorem resolver_raises_for {env : Collaborators} (codebase : string) (w : World)
    (query selected_thread mode : string) (edit_data : option EditData) :
  ((forall doc, sqlite_db w !! selected_thread = Some doc ->
                md_group doc <> codebase +:+ "_threads") ->
   fst (_update_current_state codebase w query selected_thread mode edit_data)
   = Raise (KeyError "source")) /\
  (forall doc raw,
     sqlite_db w !! selected_thread = Some doc ->
     md_group doc = codebase +:+ "_threads" ->
     page_content doc = NotJson raw ->
     fst (_update_current_state codebase w query selected_thread mode edit_data)
     = Raise (JSONDecodeError raw)) /\
  (forall convo : list BaseMessage,
     exists q kept,
       handle_mode mode query edit_data convo = Ok (q, kept) /\
       length kept <= length convo).
Proof.
  split; [|split].
  - intros Hno.
    assert (El : load_all_from_sqlite codebase w "threads" !! selected_thread = None).
    { apply load_lookup_None. exact Hno. }
    unfold _update_current_state. now rewrite El.
  - intros doc raw Hd Hg Hp.
    assert (El : load_all_from_sqlite codebase w "threads" !! selected_thread = Some doc).
    { apply load_lookup. auto. }
    unfold _update_current_state. now rewrite El, Hp.
  - intros convo. apply handle_mode_ok.
Qed.

Lemma resolver_raises_for_witness :
  (forall doc, sqlite_db Script.world !! "short" = Some doc ->
               md_group doc <> "other" +:+ "_threads") /\
  fst (_update_current_state (env := Script.env) "other" Script.world
         "Hi" "short" "main" None)
  = Raise (KeyError "source") /\
  fst (_update_current_state (env := Script.env) "demo" Script.world
         "Hi" "broken" "retry" None)
  = Raise (JSONDecodeError "[{").
Proof.
  assert (H : forall doc, sqlite_db Script.world !! "short" = Some doc ->
                          md_group doc <> "other" +:+ "_threads").
  { intros doc Hd. vm_compute in Hd. injection Hd as <-. discriminate. }
  split; [exact H|]. split.
  - exact (proj1 (resolver_raises_for (env := Script.env) "other" Script.world
                    "Hi" "short" "main" None) H).
  - exact (proj1 (proj2 (resolver_raises_for (env := Script.env) "demo" Script.world
                           "Hi" "broken" "retry" None)) _ "[{" eq_refl eq_refl eq_refl).
Defined.

(** X5. Whatever the store holds and whatever the mode, the view the
    resolver returns has at most eleven entries: at most ten from the
    stored history and the user entry of the query; with an empty query
    it has at most ten. *)
Theorem resolver_view_bounded {env : Collaborators} (codebase : string) (w w' : World)
    (query selected_thread mode : string) (edit_data : option EditData)
    (q source group : string) (view : list jval) :
  _update_current_state codebase w query selected_thread mode edit_data
  = (Ok (q, view, source, group), w') ->
  length view <= 11 /\ (q = "" -> length view <= 10).
Proof.
  unfold _update_current_state.
  destruct (load_all_from_sqlite codebase w "threads" !! selected_thread) as [doc|];
    [|discriminate].
  destruct (loads (page_content doc)) as [stored|e]; [|discriminate].
  pose proof (length_cap_history stored) as Hc.
  destruct (cap_history stored) as [|m convo] eqn:Ec.
  - intros [= <- <- _ _ _]. destruct query; simpl; split; intros; lia.
  - destruct (handle_mode_ok mode query edit_data (m :: convo)) as (q0 & c & -> & Hl).
    intros [= <- <- _ _ _].
    pose proof (length_flat_map_to_wire c) as Hw.
    destruct q0; cbn [PyStr.is_empty]; rewrite ?length_app; simpl in *;
      split; intros; try discriminate; lia.
Qed.

Lemma resolver_view_bounded_witness :
  _update_current_state (env := Script.env) "demo" Script.world "Hi" "long" "main" None
  = (Ok ("Hi",
         map Wire.to_json (drop 2 Script.long_history) ++ [user_entry "Hi"],
         "chat", "demo_threads"),
     update_state (env := Script.env) Script.world "long"
       (map Wire.typed (drop 2 Script.long_history))) /\
  length (map Wire.to_json (drop 2 Script.long_history) ++ [user_entry "Hi"]) <= 11 /\
  ("Hi" = "" ->
   length (map Wire.to_json (drop 2 Script.long_history) ++ [user_entry "Hi"]) <= 10).
Proof.
  assert (E : _update_current_state (env := Script.env) "demo" Script.world
                "Hi" "long" "main" None
              = (Ok ("Hi",
                     map Wire.to_json (drop 2 Script.long_history) ++ [user_entry "Hi"],
                     "chat", "demo_threads"),
                 update_state (env := Script.env) Script.world "long"
                   (map Wire.typed (drop 2 Script.long_history)))) by reflexivity.
  split; [exact E|].
  exact (resolver_view_bounded (env := Script.env) _ _ _ _ _ _ _ _ _ _ _ E).
Defined.

(** X6. What resolving does to the world. It never writes to the
    persisted store; it never touches the working state of another
    thread; and in undo mode, as in any mode that is not main, retry or
    edit, it changes nothing at all. *)
Theorem resolver_effects {env : Collaborators} (codebase : string) (w : World)
    (query selected_thread mode : string) (edit_data : option EditData) :
  sqlite_db (snd (_update_current_state codebase w query selected_thread mode edit_data))
  = sqlite_db w /\
  (forall other : string,
     other <> selected_thread ->
     checkpointer
       (snd (_update_current_state codebase w query selected_thread mode edit_data))
     !! other
     = checkpointer w !! other) /\
  (mode <> "main" -> mode <> "retry" -> mode <> "edit" ->
   snd (_update_current_state codebase w query selected_thread mode edit_data) = w).
Proof.
  split; [apply resolver_store|].
  unfold _update_current_state.
  destruct (load_all_from_sqlite codebase w "threads" !! selected_thread) as [doc|];
    [|now split].
  destruct (loads (page_content doc)) as [stored|e]; [|now split].
  destruct (cap_history stored) as [|m convo]; [now split|].
  destruct (handle_mode_ok mode query edit_data (m :: convo)) as (q & c & -> & _).
  split.
  - intros other Hne.
    destruct (String.eqb mode "retry" || String.eqb mode "edit" || String.eqb mode "main");
      [|reflexivity].
    cbn. now rewrite lookup_insert_ne.
  - intros Hm Hr He.
    apply String.eqb_neq in Hm, Hr, He. now rewrite Hm, Hr, He.
Qed.

Lemma resolver_effects_witness :
  "short" <> "long" /\
  checkpointer
    (snd (_update_current_state (env := Script.env) "demo" Script.world
            "Hi" "long" "main" None)) !! "short"
  = checkpointer Script.world !! "short" /\
  snd (_update_current_state (env := Script.env) "demo" Script.world
         "Hi" "long" "undo" None) = Script.world.
Proof.
  assert (H : "short" <> "long") by discriminate.
  split; [exact H|]. split.
  - exact (proj1 (proj2 (resolver_effects (env := Script.env) "demo" Script.world
                          "Hi" "long" "main" None)) "short" H).
  - apply (proj2 (proj2 (resolver_effects (env := Script.env) "demo" Script.world
                          "Hi" "long" "undo" None))); discriminate.
Defined.



(** ** The response stream assembler, snapshots, errors and deduplication *)

Section StreamMore.
Context {env : Collaborators}.

Lemma snapshots_lookup (base new : list jval) (i : nat) (snap : list jval) :
  snapshots base new !! i = Some snap ->
  snap = base ++ take (S i) new /\ i < length new.
Proof.
  revert base i. induction new as [|x new IH]; intros base i; [discriminate|].
  destruct i as [|i]; simpl.
  - intros [= <-]. split; [now rewrite take_0 | lia].
  - intros H. destruct (IH _ _ H) as [-> Hi].
    split; [now rewrite <- app_assoc | lia].
Qed.

(** The assembler's result in one form for every query. *)
Lemma astream_response_shape (w : World) (transcript : list jval)
    (query selected_thread : string) :
  exists added e w',
    _astream_response w transcript query selected_thread
    = (transcript ++ added, snapshots transcript added, e, w') /\
    added = if PyStr.is_empty query then [] else streamed w query selected_thread.
Proof.
  destruct (PyStr.is_empty query) eqn:Hq.
  - destruct query; [|discriminate]. exists [], None, w.
    rewrite astream_response_empty, app_nil_r. auto.
  - destruct (astream_response_spec w transcript query selected_thread Hq) as (e & E).
    eauto.
Qed.

(** The exception of the loop over the scanned messages: none when
    every message can be hashed, the TypeError of the first one that
    cannot otherwise. *)
Lemma for_each_parts_exception (parts : list BaseMessage) (st : stream_state) :
  snd (for_each process_part st parts)
  = if forallb hashable parts then None
    else Some (TypeError "unhashable type: 'list'").
Proof.
  revert st. induction parts as [|m parts IH]; intros st; [reflexivity|].
  cbn [for_each forallb]. unfold process_part at 1. unfold msg_hash, hashable.
  destruct (msg_content m) as [s|l]; [|reflexivity].
  cbn [andb]. destruct (decide (_ ∈ _)); [apply IH|].
  rewrite present_spec. apply IH.
Qed.

Lemma presented_complete (seen : gset Z) (parts : list BaseMessage) (m : BaseMessage) :
  forallb hashable parts = true -> In m parts ->
  exists h, msg_hash m = Ok h /\
            (h ∈ seen \/ exists m', In m' (presented seen parts) /\ msg_hash m' = Ok h).
Proof.
  revert seen. induction parts as [|p parts IH]; intros seen; [intros _ []|].
  cbn [forallb presented]. intros Hh Hin. apply andb_prop in Hh as [Hp Hh].
  assert (exists hp, msg_hash p = Ok hp) as (hp & Ep).
  { unfold msg_hash, hashable in *. destruct (msg_content p); [eauto | discriminate]. }
  rewrite Ep. destruct Hin as [<- | Hin].
  - exists hp. split; [assumption|].
    destruct (decide (hp ∈ seen)); [now left|]. right. exists p. simpl. auto.
  - destruct (decide (hp ∈ seen)) as [Hs|Hs].
    + apply IH; assumption.
    + destruct (IH (seen ∪ {[hp]}) Hh Hin) as (h & Em & [Hu | (m' & Hm' & Eh)]).
      * exists h. split; [assumption|].
        apply elem_of_union in Hu as [Hu | Hu]; [now left|].
        apply elem_of_singleton in Hu as ->. right. exists p. simpl. auto.
      * exists h. split; [assumption|]. right. exists m'. simpl. auto.
Qed.

Lemma part_entries_assistant (m : BaseMessage) (entry : jval) :
  In entry (part_entries m) ->
  exists text meta title,
    entry = Wire.to_json {| Wire.msg_role := Wire.Assistant; Wire.msg_text := text;
                            Wire.msg_meta := meta |} /\
    text <> "" /\ meta !! "title" = Some title /\ assembler_title title.
Proof.
  unfold part_entries. destruct m as [c md | [s | l] md | name c]; [intros []| |intros []|].
  - unfold present. cbv beta iota.
    destruct (TagFacts.separate_total s) as (r & f & E).
    unfold Tags.separate in E. rewrite E.
    destruct r as [|a r], f as [|b f]; simpl.
    + intros [].
    + intros [<- | []]. eexists _, _, _. split; [reflexivity|].
      split; [discriminate|]. split; [reflexivity|]. right. now left.
    + intros [<- | []]. eexists _, _, _. split; [reflexivity|].
      split; [discriminate|]. split; [reflexivity|]. now left.
    + intros [<- | [<- | []]]; eexists _, _, _; (split; [reflexivity|]);
        (split; [discriminate|]); (split; [reflexivity|]);
        [now left | right; now left].
  - simpl. intros [<- | []]. eexists _, _, _. split; [reflexivity|].
    split; [discriminate|]. split; [reflexivity|]. right. now right.
Qed.

End StreamMore.

(** X8. Every snapshot the assembler yields is a prefix of its final
    transcript: the transcript it was given is the start of the final
    one, the i-th snapshot holds exactly one entry more than the one
    before, and there are as many snapshots as entries were appended. *)
Theorem snapshots_are_prefixes {env : Collaborators} (w w' : World)
    (transcript final : list jval) (responses : list (list jval))
    (query selected_thread : string) (e : option exn) :
  _astream_response w transcript query selected_thread = (final, responses, e, w') ->
  take (length transcript) final = transcript /\
  length responses = length final - length transcript /\
  (forall i snap,
     responses !! i = Some snap -> snap = take (length transcript + S i) final).
Proof.
  destruct (astream_response_shape w transcript query selected_thread)
    as (added & e0 & w0 & -> & _).
  intros [= <- <- _ _]. split; [apply take_app_length|].
  split; [rewrite length_snapshots, length_app; lia|].
  intros i snap H. apply snapshots_lookup in H as [-> Hi].
  now rewrite take_app_add'.
Qed.

Lemma snapshots_are_prefixes_witness :
  _astream_response (env := Script.env) Script.world [user_entry "Hi"] "Hi" "new"
  = ([user_entry "Hi"]
     ++ flat_map (part_entries (env := Script.env)) [Script.tool_reply; Script.reply],
     snapshots [user_entry "Hi"]
       (flat_map (part_entries (env := Script.env)) [Script.tool_reply; Script.reply]),
     None,
     {| sqlite_db := sqlite_db Script.world;
        checkpointer :=
          <["new" := [HumanMessage (CStr "Hi") (JDict ∅); Script.tool_reply;
                      Script.reply]]> ∅ |}) /\
  length (snapshots [user_entry "Hi"]
            (flat_map (part_entries (env := Script.env))
               [Script.tool_reply; Script.reply])) = 3.
Proof.
  assert (E : _astream_response (env := Script.env) Script.world [user_entry "Hi"]
                "Hi" "new"
              = ([user_entry "Hi"]
                 ++ flat_map (part_entries (env := Script.env))
                      [Script.tool_reply; Script.reply],
                 snapshots [user_entry "Hi"]
                   (flat_map (part_entries (env := Script.env))
                      [Script.tool_reply; Script.reply]),
                 None,
                 {| sqlite_db := sqlite_db Script.world;
                    checkpointer :=
                      <["new" := [HumanMessage (CStr "Hi") (JDict ∅); Script.tool_reply;
                                  Script.reply]]> ∅ |})) by reflexivity.
  split; [exact E|].
  exact (proj1 (proj2 (snapshots_are_prefixes (env := Script.env) _ _ _ _ _ _ _ _ E))).
Defined.

(** X9. Where the assembler's exception comes from, for a query that is
    not empty. When every scanned message has a string content, the
    assembler ends as the engine's stream ends: with the engine's
    exception, or with none. When some scanned message has a list as
    content, the assembler raises the TypeError of hashing it, whatever
    the engine does. *)
Theorem assembler_exception {env : Collaborators} (w : World) (transcript : list jval)
    (query selected_thread : string) :
  PyStr.is_empty query = false ->
  let stream :=
    astream (checkpointer w) selected_thread [HumanMessage (CStr query) (JDict ∅)] in
  let parts :=
    scanned
      (match checkpointer w !! selected_thread with
       | Some msgs => length msgs
       | None => 0
       end) query (steps stream) in
  (forallb hashable parts = true ->
   snd (fst (_astream_response w transcript query selected_thread)) = raised stream) /\
  (forallb hashable parts = false ->
   snd (fst (_astream_response w transcript query selected_thread))
   = Some (TypeError "unhashable type: 'list'")).
Proof.
  intros Hq stream parts.
  unfold _astream_response, _get_checkpoint_state. rewrite Hq, for_each_steps.
  fold stream. fold parts.
  match goal with
  | |- context [for_each process_part ?st parts] =>
      pose proof (for_each_parts_exception parts st) as He;
      destruct (for_each process_part st parts) as [st' e]
  end.
  simpl in He. split; intros Hh; rewrite Hh in He; subst e; reflexivity.
Qed.

Lemma assembler_exception_witness :
  PyStr.is_empty "boom" = false /\
  snd (fst (_astream_response (env := Script.env) Script.world [] "boom" "new"))
  = Some (EngineError "boom").
Proof.
  split; [reflexivity|].
  exact (proj1 (assembler_exception (env := Script.env) Script.world [] "boom" "new"
                  eq_refl) eq_refl).
Defined.

(** X10. Deduplication loses nothing but repetitions. For a query that
    is not empty, when every scanned message has a string content and no
    two of the scanned messages with different kind or content have the
    same hash, every scanned message has a presented message of the same
    kind and content, and the entries of that message are in the final
    transcript. *)
Theorem every_fingerprint_presented {env : Collaborators} (w : World)
    (transcript : list jval) (query selected_thread : string) (m : BaseMessage) :
  PyStr.is_empty query = false ->
  let parts :=
    scanned
      (match checkpointer w !! selected_thread with
       | Some msgs => length msgs
       | None => 0
       end) query
      (steps (astream (checkpointer w) selected_thread
                [HumanMessage (CStr query) (JDict ∅)])) in
  (forall m1 m2,
     In m1 parts -> In m2 parts ->
     msg_hash m1 = msg_hash m2 -> fingerprint m1 = fingerprint m2) ->
  forallb hashable parts = true ->
  In m parts ->
  exists m',
    fingerprint m' = fingerprint m /\
    forall entry,
      In entry (part_entries m') ->
      In entry (fst (fst (fst (_astream_response w transcript query selected_thread)))).
Proof.
  intros Hq parts Hfree Hh Hin.
  destruct (astream_response_spec w transcript query selected_thread Hq) as (e & ->).
  cbn [fst]. unfold streamed. fold parts.
  destruct (presented_complete ∅ parts m Hh Hin) as (h & Em & [Hs | (m' & Hm' & Eh)]).
  { exfalso. set_solver. }
  exists m'. split.
  - apply Hfree; [|exact Hin|congruence].
    apply list_elem_of_In.
    eapply elem_of_sublist; [|apply presented_sublist].
    apply list_elem_of_In. exact Hm'.
  - intros entry He. apply in_or_app. right.
    apply in_flat_map. exists m'. auto.
Qed.

Lemma every_fingerprint_presented_witness :
  PyStr.is_empty "Hi" = false /\
  (forall m1 m2,
     In m1 [Script.tool_reply; Script.tool_reply; Script.reply] ->
     In m2 [Script.tool_reply; Script.tool_reply; Script.reply] ->
     msg_hash (env := Script.env) m1 = msg_hash (env := Script.env) m2 ->
     fingerprint m1 = fingerprint m2) /\
  (exists m',
     fingerprint m' = fingerprint Script.reply /\
     forall entry,
       In entry (part_entries (env := Script.env) m') ->
       In entry (fst (fst (fst (_astream_response (env := Script.env) Script.world []
                                  "Hi" "new"))))).
Proof.
  assert (Hfree : forall m1 m2,
             In m1 [Script.tool_reply; Script.tool_reply; Script.reply] ->
             In m2 [Script.tool_reply; Script.tool_reply; Script.reply] ->
             msg_hash (env := Script.env) m1 = msg_hash (env := Script.env) m2 ->
             fingerprint m1 = fingerprint m2).
  { intros m1 m2 [<- | [<- | [<- | []]]] [<- | [<- | [<- | []]]] E;
      try reflexivity; vm_compute in E; discriminate. }
  split; [reflexivity|]. split; [exact Hfree|].
  apply (every_fingerprint_presented (env := Script.env) Script.world [] "Hi" "new"
           Script.reply eq_refl Hfree eq_refl).
  right. right. left. reflexivity.
Defined.

(** X11. A message that repeats the kind and the content of the message
    before it adds nothing, whatever else differs: a tool result with
    the same content is dropped even when it comes from another tool. *)
Theorem repeated_fingerprint_adds_nothing {env : Collaborators} (st : stream_state)
    (m m' : BaseMessage) :
  fingerprint m' = fingerprint m ->
  hashable m = true ->
  for_each process_part st [m; m'] = for_each process_part st [m].
Proof.
  intros Hf Hh. unfold fingerprint in Hf. injection Hf as Ht Hc.
  unfold hashable in Hh. destruct (msg_content m) as [s|l] eqn:Ec; [|discriminate].
  assert (Eh : msg_hash m = Ok (py_hash (type_of m) s))
    by (unfold msg_hash; now rewrite Ec).
  assert (Eh' : msg_hash m' = Ok (py_hash (type_of m) s))
    by (unfold msg_hash; now rewrite Ht, Hc).
  assert (P : forall st0 x h,
             msg_hash x = Ok h ->
             process_part st0 x
             = if decide (h ∈ processed_hashes st0) then (st0, None)
               else present {| st_transcript := st_transcript st0;
                               st_yielded := st_yielded st0;
                               processed_hashes := processed_hashes st0 ∪ {[h]} |} x).
  { intros st0 x h E. unfold process_part. now rewrite E. }
  cbn [for_each]. rewrite (P st m _ Eh).
  destruct (decide (py_hash (type_of m) s ∈ processed_hashes st)) as [Hin|Hin].
  - rewrite (P st m' _ Eh').
    destruct (decide (py_hash (type_of m) s ∈ processed_hashes st));
      [reflexivity | contradiction].
  - rewrite present_spec, (P _ m' _ Eh'). cbn [processed_hashes].
    destruct (decide (py_hash (type_of m) s
                      ∈ processed_hashes st ∪ {[py_hash (type_of m) s]}));
      [reflexivity | set_solver].
Qed.

Lemma repeated_fingerprint_adds_nothing_witness :
  fingerprint (ToolMessage (Some "browse") (CStr "3 hits"))
  = fingerprint (ToolMessage (Some "search") (CStr "3 hits")) /\
  for_each (process_part (env := Script.env))
    {| st_transcript := []; st_yielded := []; processed_hashes := ∅ |}
    [ToolMessage (Some "search") (CStr "3 hits");
     ToolMessage (Some "browse") (CStr "3 hits")]
  = for_each (process_part (env := Script.env))
      {| st_transcript := []; st_yielded := []; processed_hashes := ∅ |}
      [ToolMessage (Some "search") (CStr "3 hits")].
Proof.
  split; [reflexivity|].
  exact (repeated_fingerprint_adds_nothing (env := Script.env)
           {| st_transcript := []; st_yielded := []; processed_hashes := ∅ |}
           (ToolMessage (Some "search") (CStr "3 hits"))
           (ToolMessage (Some "browse") (CStr "3 hits")) eq_refl eq_refl).
Defined.

(** X12. Every entry the assembler appends is an assistant entry with a
    content that is not empty and with one of the three titles
    "Assistant Thinking...", "Assistant Message" and "Tool call output";
    the entries it was given stay in front, unchanged. *)
Theorem appended_entries_are_assistant {env : Collaborators} (w : World)
    (transcript : list jval) (query selected_thread : string) :
  exists added,
    fst (fst (fst (_astream_response w transcript query selected_thread)))
    = transcript ++ added /\
    forall entry,
      In entry added ->
      exists text meta title,
        entry = Wire.to_json {| Wire.msg_role := Wire.Assistant;
                                Wire.msg_text := text; Wire.msg_meta := meta |} /\
        text <> "" /\ meta !! "title" = Some title /\ assembler_title title.
Proof.
  destruct (astream_response_shape w transcript query selected_thread)
    as (added & e & w' & -> & Ea).
  exists added. split; [reflexivity|].
  intros entry Hin. destruct (PyStr.is_empty query); subst added; [destruct Hin|].
  unfold streamed in Hin. apply in_flat_map in Hin as (m & _ & Hm).
  exact (part_entries_assistant m entry Hm).
Qed.

(** ** Whole turns in every mode *)

Section RunMore.
Context {env : Collaborators}.
Variable codebase : string.

(** A resolver that returns has found the thread's document and hands on
    its source and group. *)
Lemma resolver_ok_doc (w w' : World) (query thread mode : string) (ed : option EditData)
    (q src grp : string) (view : list jval) :
  _update_current_state codebase w query thread mode ed = (Ok (q, view, src, grp), w') ->
  exists doc,
    load_all_from_sqlite codebase w "threads" !! thread = Some doc /\
    src = md_source doc /\ grp = md_group doc.
Proof.
  unfold _update_current_state.
  destruct (load_all_from_sqlite codebase w "threads" !! thread) as [doc|]; [|discriminate].
  destruct (loads (page_content doc)) as [stored|e]; [|discriminate].
  destruct (cap_history stored) as [|m convo].
  - intros [= _ _ <- <- _]. eauto.
  - destruct (handle_mode mode query ed (m :: convo)) as [[q0 c]|e]; [|discriminate].
    intros [= _ _ <- <- _]. eauto.
Qed.

Lemma last_snapshots (base new : list jval) :
  last (base :: snapshots base new) = Some (base ++ new).
Proof.
  destruct new as [|x l] using rev_ind.
  - simpl. now rewrite app_nil_r.
  - rewrite snapshots_app. simpl. rewrite app_comm_cons, last_snoc.
    now rewrite <- !app_assoc.
Qed.

(** A run that ends without an exception, in terms of the resolver's
    result. *)
Lemma run_success (w : World) (query thread mode : string) (ed : option EditData) :
  outcome (aget_agent_response codebase w query thread mode ed) = None ->
  exists q view src grp w1 added w2,
    _update_current_state codebase w query thread mode ed = (Ok (q, view, src, grp), w1) /\
    added = (if PyStr.is_empty q then [] else streamed w1 q thread) /\
    sqlite_db w2 = sqlite_db w /\
    (PyStr.is_empty q = true -> w2 = w1) /\
    aget_agent_response codebase w query thread mode ed
    = {| yields := view :: snapshots view added;
         outcome := None;
         world := _update_thread_history w2 (view ++ added) grp src thread |}.
Proof.
  rewrite run_unfold.
  pose proof (resolver_store codebase w query thread mode ed) as Hr.
  destruct (_update_current_state codebase w query thread mode ed)
    as [[[[[q view] src] grp]|e] w1]; [|discriminate].
  simpl in Hr.
  pose proof (stream_store w1 view q thread) as Hs.
  destruct (astream_response_shape w1 view q thread) as (added & e & w2 & E & Ea).
  rewrite E in Hs |- *. simpl in Hs.
  destruct e; [discriminate|]. intros _.
  exists q, view, src, grp, w1, added, w2.
  split; [reflexivity|]. split; [exact Ea|]. split; [congruence|].
  split; [|reflexivity].
  intros Hq. destruct q; [|discriminate].
  rewrite astream_response_empty in E. now injection E as _ _ <-.
Qed.

(** Retry and undo on a stored history of wire messages whose window of
    the last ten holds a user message. *)
Lemma resolver_retry_undo_wire (w : World) (query thread : string) (ed : option EditData)
    (doc : Document) (h before after : list Wire.msg) (u : Wire.msg) :
  load_all_from_sqlite codebase w "threads" !! thread = Some doc ->
  page_content doc = JsonArray (map Wire.to_json h) ->
  Wire.last_n 10 h = before ++ u :: after ->
  Wire.msg_role u = Wire.User ->
  Forall (fun m => Wire.msg_role m = Wire.Assistant) after ->
  _update_current_state codebase w query thread "retry" ed
  = (Ok (Wire.msg_text u,
         map Wire.to_json before
         ++ (if PyStr.is_empty (Wire.msg_text u) then []
             else [user_entry (Wire.msg_text u)]),
         md_source doc, md_group doc),
     update_state w thread (map Wire.typed before)) /\
  _update_current_state codebase w query thread "undo" ed
  = (Ok ("", map Wire.to_json before, md_source doc, md_group doc), w).
Proof.
  intros Hl Hp Hw Hu Ha. unfold _update_current_state. rewrite Hl, Hp. cbn [loads].
  rewrite cap_history_wire, Hw, map_app. cbn [map].
  assert (Et : Wire.typed u
               = HumanMessage (CStr (Wire.msg_text u)) (JDict (Wire.msg_meta u))).
  { unfold Wire.typed. now rewrite Hu. }
  assert (Hf : Forall (fun m => is_human m = false) (map Wire.typed after)).
  { apply Forall_forall. intros m Hm.
    apply list_elem_of_In, in_map_iff in Hm as (x & <- & Hx).
    rewrite Forall_forall in Ha. unfold Wire.typed.
    rewrite (Ha x) by (apply list_elem_of_In; exact Hx). reflexivity. }
  rewrite Et.
  destruct (map Wire.typed before ++ HumanMessage (CStr (Wire.msg_text u))
                                       (JDict (Wire.msg_meta u))
                                     :: map Wire.typed after) as [|m0 l0] eqn:El.
  { destruct (map Wire.typed before); discriminate. }
  rewrite <- El. unfold handle_mode.
  cbn [String.eqb Ascii.eqb Bool.eqb orb andb].
  rewrite (find_latest_last_user _ _ _ _ Hf).
  rewrite list_lookup_middle by reflexivity.
  cbn [slice_to_opt msg_content str_content content_json py_str].
  rewrite take_app_length, flat_map_to_wire_typed.
  split; [|reflexivity].
  destruct (PyStr.is_empty (Wire.msg_text u)); [now rewrite app_nil_r | reflexivity].
Qed.

End RunMore.

(** X13. In every mode, a run that ends without an exception has found
    the thread's document, has yielded at least one snapshot, and has
    replaced the document by the last snapshot it yielded, under the
    source and group the document had. Every snapshot it yielded is a
    prefix of that last one. *)
Theorem run_persists_last_snapshot {env : Collaborators} (codebase : string) (w : World)
    (query selected_thread mode : string) (edit_data : option EditData) :
  outcome (aget_agent_response codebase w query selected_thread mode edit_data) = None ->
  exists doc final,
    load_all_from_sqlite codebase w "threads" !! selected_thread = Some doc /\
    last (yields (aget_agent_response codebase w query selected_thread mode edit_data))
    = Some final /\
    sqlite_db (world (aget_agent_response codebase w query selected_thread mode edit_data))
    = <[selected_thread :=
          {| page_content := JsonArray final;
             md_source := md_source doc;
             md_group := md_group doc |}]> (sqlite_db w) /\
    (forall snap,
       In snap (yields (aget_agent_response codebase w query selected_thread mode
                          edit_data)) ->
       exists k, snap = take k final).
Proof.
  intros Hout.
  destruct (run_success codebase w query selected_thread mode edit_data Hout)
    as (q & view & src & grp & w1 & added & w2 & Er & _ & Hs & _ & ->).
  destruct (resolver_ok_doc codebase _ _ _ _ _ _ _ _ _ _ Er) as (doc & Hl & -> & ->).
  exists doc, (view ++ added). cbn [yields world].
  split; [exact Hl|]. split; [apply last_snapshots|].
  split; [unfold _update_thread_history; cbn; now rewrite Hs|].
  intros snap [<- | Hin].
  - exists (length view). now rewrite take_app_length.
  - apply snapshots_prefix in Hin as (k & -> & _).
    exists (length view + k). now rewrite take_app_add'.
Qed.

Lemma run_persists_last_snapshot_witness :
  outcome (aget_agent_response (env := Script.env) "demo" Script.world
             "Hi" "short" "retry" None) = None /\
  exists doc final,
    load_all_from_sqlite "demo" Script.world "threads" !! "short" = Some doc /\
    last (yields (aget_agent_response (env := Script.env) "demo" Script.world
                    "Hi" "short" "retry" None)) = Some final /\
    sqlite_db (world (aget_agent_response (env := Script.env) "demo" Script.world
                        "Hi" "short" "retry" None))
    = <["short" :=
          {| page_content := JsonArray final;
             md_source := md_source doc;
             md_group := md_group doc |}]> (sqlite_db Script.world) /\
    (forall snap,
       In snap (yields (aget_agent_response (env := Script.env) "demo" Script.world
                          "Hi" "short" "retry" None)) ->
       exists k, snap = take k final).
Proof.
  assert (H : outcome (aget_agent_response (env := Script.env) "demo" Script.world
                         "Hi" "short" "retry" None) = None) by reflexivity.
  split; [exact H|].
  exact (run_persists_last_snapshot (env := Script.env) "demo" Script.world
           "Hi" "short" "retry" None H).
Defined.

(** X14. No run, whether it ends with an exception or without one,
    changes the document of another thread. *)
Theorem run_keeps_other_threads {env : Collaborators} (codebase : string) (w : World)
    (query selected_thread mode : string) (edit_data : option EditData) (other : string) :
  other <> selected_thread ->
  sqlite_db (world (aget_agent_response codebase w query selected_thread mode edit_data))
  !! other
  = sqlite_db w !! other.
Proof.
  intros Hne. rewrite run_unfold.
  pose proof (resolver_store codebase w query selected_thread mode edit_data) as Hr.
  destruct (_update_current_state codebase w query selected_thread mode edit_data)
    as [[[[[q view] src] grp]|e] w1]; simpl in Hr; [|cbn; now rewrite Hr].
  pose proof (stream_store w1 view q selected_thread) as Hs.
  destruct (_astream_response w1 view q selected_thread)
    as [[[final responses] [e|]] w2]; simpl in Hs; cbn.
  - now rewrite Hs, Hr.
  - rewrite lookup_insert_ne by congruence. now rewrite Hs, Hr.
Qed.

Lemma run_keeps_other_threads_witness :
  "long" <> "short" /\
  sqlite_db (world (aget_agent_response (env := Script.env) "demo" Script.world
                      "Hi" "short" "main" None)) !! "long"
  = sqlite_db Script.world !! "long".
Proof.
  assert (H : "long" <> "short") by discriminate.
  split; [exact H|].
  exact (run_keeps_other_threads (env := Script.env) "demo" Script.world
           "Hi" "short" "main" None "long" H).
Defined.

(** X15. What a reload shows. After a run that ends without an
    exception, the thread is still among the chat threads of the
    codebase, and the state details of the thread are the last snapshot
    the run yielded. *)
Theorem reload_shows_last_snapshot {env : Collaborators} (codebase : string) (w : World)
    (query selected_thread mode : string) (edit_data : option EditData) :
  outcome (aget_agent_response codebase w query selected_thread mode edit_data) = None ->
  exists final,
    last (yields (aget_agent_response codebase w query selected_thread mode edit_data))
    = Some final /\
    get_state_details codebase
      (world (aget_agent_response codebase w query selected_thread mode edit_data))
      "threads" selected_thread
    = Ok (ChatDetails final) /\
    (exists name,
       In (name, selected_thread)
         (get_list codebase
            (world (aget_agent_response codebase w query selected_thread mode edit_data))
            "threads")).
Proof.
  intros Hout.
  destruct (run_success codebase w query selected_thread mode edit_data Hout)
    as (q & view & src & grp & w1 & added & w2 & Er & _ & Hs & _ & ->).
  destruct (resolver_ok_doc codebase _ _ _ _ _ _ _ _ _ _ Er) as (doc & Hl & -> & ->).
  apply load_lookup in Hl as [_ Hg].
  exists (view ++ added). cbn [yields world].
  split; [apply last_snapshots|].
  assert (Hnew : load_all_from_sqlite codebase
                   (_update_thread_history w2 (view ++ added) (md_group doc)
                      (md_source doc) selected_thread) "threads" !! selected_thread
                 = Some {| page_content := dumps (view ++ added);
                           md_source := md_source doc; md_group := md_group doc |}).
  { apply load_lookup. split; [apply lookup_insert_eq | exact Hg]. }
  split.
  - unfold get_state_details. rewrite Hnew. reflexivity.
  - exists (md_source doc). unfold get_list.
    apply in_map_iff.
    exists (selected_thread,
            {| page_content := dumps (view ++ added);
               md_source := md_source doc; md_group := md_group doc |}).
    split; [reflexivity|].
    apply list_elem_of_In, elem_of_map_to_list. exact Hnew.
Qed.

Lemma reload_shows_last_snapshot_witness :
  outcome (aget_agent_response (env := Script.env) "demo" Script.world
             "Hi" "new" "main" None) = None /\
  exists final,
    last (yields (aget_agent_response (env := Script.env) "demo" Script.world
                    "Hi" "new" "main" None)) = Some final /\
    get_state_details "demo"
      (world (aget_agent_response (env := Script.env) "demo" Script.world
                "Hi" "new" "main" None)) "threads" "new"
    = Ok (ChatDetails final) /\
    (exists name,
       In (name, "new")
         (get_list "demo"
            (world (aget_agent_response (env := Script.env) "demo" Script.world
                      "Hi" "new" "main" None)) "threads")).
Proof.
  assert (H : outcome (aget_agent_response (env := Script.env) "demo" Script.world
                         "Hi" "new" "main" None) = None) by reflexivity.
  split; [exact H|].
  exact (reload_shows_last_snapshot (env := Script.env) "demo" Script.world
           "Hi" "new" "main" None H).
Defined.

(** X16. An undo turn on a stored history of wire messages whose window
    of the last ten holds a user message. The run yields one snapshot,
    the window cut in front of its last user message, ends without an
    exception and stores that snapshot: the last user message, what
    came behind it and what is older than the window are gone from the
    store. The engine is not asked and the working state stays as it
    was, whatever query came in. *)
Theorem undo_turn {env : Collaborators} (codebase : string) (w : World)
    (query selected_thread : string) (edit_data : option EditData)
    (doc : Document) (h before after : list Wire.msg) (u : Wire.msg) :
  load_all_from_sqlite codebase w "threads" !! selected_thread = Some doc ->
  page_content doc = JsonArray (map Wire.to_json h) ->
  Wire.last_n 10 h = before ++ u :: after ->
  Wire.msg_role u = Wire.User ->
  Forall (fun m => Wire.msg_role m = Wire.Assistant) after ->
  aget_agent_response codebase w query selected_thread "undo" edit_data
  = {| yields := [map Wire.to_json before];
       outcome := None;
       world :=
         {| sqlite_db :=
              <[selected_thread :=
                  {| page_content := JsonArray (map Wire.to_json before);
                     md_source := md_source doc;
                     md_group := md_group doc |}]> (sqlite_db w);
            checkpointer := checkpointer w |} |}.
Proof.
  intros Hl Hp Hw Hu Ha. rewrite run_unfold.
  rewrite (proj2 (resolver_retry_undo_wire codebase w query selected_thread edit_data
                    doc h before after u Hl Hp Hw Hu Ha)).
  rewrite astream_response_empty. reflexivity.
Qed.

Lemma undo_turn_witness :
  load_all_from_sqlite "demo" Script.world "threads" !! "short"
  = Some (Script.thread_doc (map Wire.to_json [Script.hello; Script.hi_there])) /\
  Wire.last_n 10 [Script.hello; Script.hi_there] = [] ++ Script.hello :: [Script.hi_there] /\
  Forall (fun m => Wire.msg_role m = Wire.Assistant) [Script.hi_there] /\
  aget_agent_response (env := Script.env) "demo" Script.world "typed text" "short" "undo" None
  = {| yields := [[]];
       outcome := None;
       world :=
         {| sqlite_db := <["short" := Script.thread_doc []]> (sqlite_db Script.world);
            checkpointer := checkpointer Script.world |} |}.
Proof.
  assert (H1 : load_all_from_sqlite "demo" Script.world "threads" !! "short"
               = Some (Script.thread_doc (map Wire.to_json [Script.hello; Script.hi_there])))
    by reflexivity.
  assert (H3 : Forall (fun m => Wire.msg_role m = Wire.Assistant) [Script.hi_there]).
  { constructor; [reflexivity | constructor]. }
  split; [exact H1|]. split; [reflexivity|]. split; [exact H3|].
  exact (undo_turn (env := Script.env) "demo" Script.world "typed text" "short" None _
           [Script.hello; Script.hi_there] [] [Script.hi_there] Script.hello
           H1 eq_refl eq_refl eq_refl H3).
Defined.

(** X17. A retry turn on such a history that ends without an exception.
    The first snapshot is the window cut in front of its last user
    message, followed by that message's text as a fresh user entry; the
    working state is synced with the cut window, the engine is asked the
    text again, and the store ends with the cut window followed by the
    new turn. The user entry comes back with the metadata of a new
    query, not with the metadata it was stored with. *)
Theorem retry_turn {env : Collaborators} (codebase : string) (w : World)
    (query selected_thread : string) (edit_data : option EditData)
    (doc : Document) (h before after : list Wire.msg) (u : Wire.msg) :
  load_all_from_sqlite codebase w "threads" !! selected_thread = Some doc ->
  page_content doc = JsonArray (map Wire.to_json h) ->
  Wire.last_n 10 h = before ++ u :: after ->
  Wire.msg_role u = Wire.User ->
  Forall (fun m => Wire.msg_role m = Wire.Assistant) after ->
  outcome (aget_agent_response codebase w query selected_thread "retry" edit_data) = None ->
  let w1 := update_state w selected_thread (map Wire.typed before) in
  hd_error (yields (aget_agent_response codebase w query selected_thread "retry" edit_data))
  = Some (map Wire.to_json before
          ++ (if PyStr.is_empty (Wire.msg_text u) then []
              else [user_entry (Wire.msg_text u)])) /\
  sqlite_db (world (aget_agent_response codebase w query selected_thread "retry" edit_data))
  = <[selected_thread :=
        {| page_content :=
             JsonArray (map Wire.to_json before
                        ++ new_turn w1 (Wire.msg_text u) selected_thread);
           md_source := md_source doc;
           md_group := md_group doc |}]> (sqlite_db w).
Proof.
  intros Hl Hp Hw Hu Ha Hout w1.
  destruct (run_success codebase w query selected_thread "retry" edit_data Hout)
    as (q & view & src & grp & w1' & added & w2 & Er & Ea & Hs & _ & ->).
  rewrite (proj1 (resolver_retry_undo_wire codebase w query selected_thread edit_data
                    doc h before after u Hl Hp Hw Hu Ha)) in Er.
  injection Er as <- <- <- <- <-. fold w1 in Ea.
  cbn [yields world hd_error]. split; [reflexivity|].
  unfold _update_thread_history, new_turn. cbn [sqlite_db]. rewrite Hs. subst added.
  destruct (PyStr.is_empty (Wire.msg_text u)); [now rewrite !app_nil_r|].
  now rewrite <- app_assoc.
Qed.

Lemma retry_turn_witness :
  load_all_from_sqlite "demo" Script.world "threads" !! "short"
  = Some (Script.thread_doc (map Wire.to_json [Script.hello; Script.hi_there])) /\
  Forall (fun m => Wire.msg_role m = Wire.Assistant) [Script.hi_there] /\
  outcome (aget_agent_response (env := Script.env) "demo" Script.world
             "ignored" "short" "retry" None) = None /\
  hd_error (yields (aget_agent_response (env := Script.env) "demo" Script.world
                      "ignored" "short" "retry" None))
  = Some [user_entry "Hello"] /\
  sqlite_db (world (aget_agent_response (env := Script.env) "demo" Script.world
                      "ignored" "short" "retry" None))
  = <["short" :=
        Script.thread_doc
          (new_turn (env := Script.env)
             (update_state (env := Script.env) Script.world "short" []) "Hello" "short")]>
      (sqlite_db Script.world).
Proof.
  assert (H1 : load_all_from_sqlite "demo" Script.world "threads" !! "short"
               = Some (Script.thread_doc (map Wire.to_json [Script.hello; Script.hi_there])))
    by reflexivity.
  assert (H3 : Forall (fun m => Wire.msg_role m = Wire.Assistant) [Script.hi_there]).
  { constructor; [reflexivity | constructor]. }
  assert (H4 : outcome (aget_agent_response (env := Script.env) "demo" Script.world
                          "ignored" "short" "retry" None) = None) by reflexivity.
  split; [exact H1|]. split; [exact H3|]. split; [exact H4|].
  exact (retry_turn (env := Script.env) "demo" Script.world "ignored" "short" None _
           [Script.hello; Script.hi_there] [] [Script.hi_there] Script.hello
           H1 eq_refl eq_refl eq_refl H3 H4).
Defined.

(** X18. The store stays a store of wire messages. When the document of
    the thread is a list of wire messages (role user or assistant, a
    string content, a metadata map), a run that ends without an
    exception leaves a list of wire messages under the thread, in every
    mode. A thread starts from the empty list, so no entry of another
    shape is ever written. *)
Theorem store_stays_wire {env : Collaborators} (codebase : string) (w : World)
    (query selected_thread mode : string) (edit_data : option EditData)
    (doc : Document) (h : list Wire.msg) :
  load_all_from_sqlite codebase w "threads" !! selected_thread = Some doc ->
  page_content doc = JsonArray (map Wire.to_json h) ->
  outcome (aget_agent_response codebase w query selected_thread mode edit_data) = None ->
  exists h' : list Wire.msg,
    sqlite_db (world (aget_agent_response codebase w query selected_thread mode edit_data))
    !! selected_thread
    = Some {| page_content := JsonArray (map Wire.to_json h');
              md_source := md_source doc; md_group := md_group doc |}.
Proof. apply run_writes_wire. Qed.

Lemma store_stays_wire_witness :
  load_all_from_sqlite "demo" Script.world "threads" !! "long"
  = Some (Script.thread_doc (map Wire.to_json Script.long_history)) /\
  outcome (aget_agent_response (env := Script.env) "demo" Script.world
             "Hi" "long" "edit" (Some {| index := IndexInt 3; value := "Why?" |})) = None /\
  exists h' : list Wire.msg,
    sqlite_db (world (aget_agent_response (env := Script.env) "demo" Script.world
                        "Hi" "long" "edit"
                        (Some {| index := IndexInt 3; value := "Why?" |}))) !! "long"
    = Some {| page_content := JsonArray (map Wire.to_json h');
              md_source := "chat"; md_group := "demo_threads" |}.
Proof.
  assert (H1 : load_all_from_sqlite "demo" Script.world "threads" !! "long"
               = Some (Script.thread_doc (map Wire.to_json Script.long_history)))
    by reflexivity.
  assert (H2 : outcome (aget_agent_response (env := Script.env) "demo" Script.world
                          "Hi" "long" "edit"
                          (Some {| index := IndexInt 3; value := "Why?" |})) = None)
    by reflexivity.
  split; [exact H1|]. split; [exact H2|].
  exact (store_stays_wire (env := Script.env) "demo" Script.world "Hi" "long" "edit" _ _
           Script.long_history H1 eq_refl H2).
Defined.

(** ** Creating and deleting chat threads *)

Section ThreadFacts.
Variable codebase : string.

Lemma get_list_In (w : World) (load_type name thread_id : string) :
  In (name, thread_id) (get_list codebase w load_type) <->
  exists doc,
    load_all_from_sqlite codebase w load_type !! thread_id = Some doc /\
    md_source doc = name.
Proof.
  unfold get_list. rewrite in_map_iff. split.
  - intros ([k d] & [= <- <-] & Hin).
    apply list_elem_of_In, elem_of_map_to_list in Hin. eauto.
  - intros (doc & Hl & <-). exists (thread_id, doc). split; [reflexivity|].
    apply list_elem_of_In, elem_of_map_to_list. exact Hl.
Qed.

Lemma create_thread_store (w : World) (name : option string) (thread_id : string) :
  sqlite_db (fst (create_thread codebase w name thread_id))
  = <[thread_id :=
        {| page_content := JsonArray [];
           md_source := match name with Some n => n | None => "unnamed" end;
           md_group := codebase +:+ "_threads" |}]> (sqlite_db w).
Proof. reflexivity. Qed.

Lemma create_thread_load (w : World) (name : option string) (thread_id : string) :
  load_all_from_sqlite codebase (fst (create_thread codebase w name thread_id)) "threads"
  !! thread_id
  = Some {| page_content := JsonArray [];
            md_source := match name with Some n => n | None => "unnamed" end;
            md_group := codebase +:+ "_threads" |}.
Proof.
  apply load_lookup. rewrite create_thread_store.
  split; [apply lookup_insert_eq | reflexivity].
Qed.

Lemma delete_thread_store (w : World) (thread_id : string) :
  sqlite_db (fst (delete_thread codebase w thread_id)) = delete thread_id (sqlite_db w).
Proof.
  unfold delete_thread.
  destruct (md_source <$> load_all_from_sqlite codebase w "threads" !! thread_id);
    reflexivity.
Qed.

End ThreadFacts.

(** X19. A new chat thread and its first turn. After [create], the
    thread is listed under its name ("unnamed" when none was given), its
    state details are the empty transcript, and the documents of the
    other threads are as before. A first main-mode turn on it that ends
    without an exception stores exactly the entries of that turn, under
    the thread's name and the group of the codebase's chat threads. *)
Theorem first_turn_on_new_thread {env : Collaborators} (codebase : string) (w : World)
    (name : option string) (thread_id query : string) :
  let created := create_thread codebase w name thread_id in
  let w0 := fst created in
  let shown := match name with Some n => n | None => "unnamed" end in
  In (shown, thread_id) (fst (fst (fst (snd created)))) /\
  get_state_details codebase w0 "threads" thread_id = Ok (ChatDetails []) /\
  (forall other, other <> thread_id -> sqlite_db w0 !! other = sqlite_db w !! other) /\
  (outcome (aget_agent_response codebase w0 query thread_id "main" None) = None ->
   sqlite_db (world (aget_agent_response codebase w0 query thread_id "main" None))
   !! thread_id
   = Some {| page_content := JsonArray (new_turn w0 query thread_id);
             md_source := shown;
             md_group := codebase +:+ "_threads" |}).
Proof.
  intros created w0 shown. subst created w0 shown.
  pose proof (create_thread_load codebase w name thread_id) as Hl.
  split; [|split; [|split]].
  - apply get_list_In. eauto.
  - unfold get_state_details. rewrite Hl. reflexivity.
  - intros other Hne. rewrite create_thread_store.
    apply lookup_insert_ne. congruence.
  - intros Hout.
    destruct (run_success codebase _ query thread_id "main" None Hout)
      as (q & view & src & grp & w1 & added & w2 & Er & Ea & Hs & _ & ->).
    unfold _update_current_state in Er. rewrite Hl in Er. cbn in Er.
    unfold new_turn. cbn [world]. unfold _update_thread_history. cbn [sqlite_db].
    rewrite lookup_insert_eq. subst added.
    assert (Eq : q = query /\ w1 = fst (create_thread codebase w name thread_id)
                 /\ view = (if PyStr.is_empty query then [] else [user_entry query])
                 /\ src = match name with Some n => n | None => "unnamed" end
                 /\ grp = codebase +:+ "_threads").
    { destruct (PyStr.is_empty query); injection Er as <- <- <- <- <-; auto. }
    destruct Eq as (-> & -> & -> & -> & ->).
    destruct (PyStr.is_empty query); reflexivity.
Qed.

Lemma first_turn_on_new_thread_witness :
  outcome (aget_agent_response (env := Script.env) "demo"
             (fst (create_thread "demo" Script.world None "fresh")) "Hi" "fresh" "main" None)
  = None /\
  sqlite_db (world (aget_agent_response (env := Script.env) "demo"
                      (fst (create_thread "demo" Script.world None "fresh"))
                      "Hi" "fresh" "main" None)) !! "fresh"
  = Some {| page_content :=
              JsonArray (new_turn (env := Script.env)
                           (fst (create_thread "demo" Script.world None "fresh"))
                           "Hi" "fresh");
            md_source := "unnamed";
            md_group := "demo_threads" |}.
Proof.
  assert (H : outcome (aget_agent_response (env := Script.env) "demo"
                         (fst (create_thread "demo" Script.world None "fresh"))
                         "Hi" "fresh" "main" None) = None) by reflexivity.
  split; [exact H|].
  exact (proj2 (proj2 (proj2 (first_turn_on_new_thread (env := Script.env) "demo"
                                Script.world None "fresh" "Hi"))) H).
Defined.

(** X20. A deleted chat thread is gone. After [delete], the store holds
    nothing under the id, the documents of the other threads are as
    before, the state details of the id are empty, the id is not in the
    returned thread list, the thread selected next is a listed one and
    never the deleted one, and every run on the id raises the KeyError
    of the missing thread and changes nothing. *)
Theorem deleted_thread_is_gone {env : Collaborators} (codebase : string) (w : World)
    (thread_id : string) :
  let w' := fst (delete_thread codebase w thread_id) in
  sqlite_db w' !! thread_id = None /\
  (forall other, other <> thread_id -> sqlite_db w' !! other = sqlite_db w !! other) /\
  get_state_details codebase w' "threads" thread_id = Ok NoDetails /\
  (forall choices next message,
     snd (delete_thread codebase w thread_id) = inr (choices, next, message) ->
     (forall name, ~ In (name, thread_id) choices) /\
     (forall t, next = Some t -> t <> thread_id /\ exists name, In (name, t) choices) /\
     (next = None <-> choices = [])) /\
  (forall query mode edit_data,
     aget_agent_response codebase w' query thread_id mode edit_data
     = {| yields := []; outcome := Some (KeyError "source"); world := w' |}).
Proof.
  intros w'.
  assert (Hs : sqlite_db w' = delete thread_id (sqlite_db w))
    by apply delete_thread_store.
  assert (Hl : forall lt, load_all_from_sqlite codebase w' lt !! thread_id = None).
  { intros lt. apply load_lookup_None. intros doc Hd.
    rewrite Hs, lookup_delete_eq in Hd. discriminate. }
  assert (Hc : forall name, ~ In (name, thread_id) (get_list codebase w' "threads")).
  { intros name Hin. apply get_list_In in Hin as (doc & Hd & _).
    rewrite Hl in Hd. discriminate. }
  split; [rewrite Hs; apply lookup_delete_eq|].
  split; [intros other Hne; rewrite Hs; apply lookup_delete_ne; congruence|].
  split; [unfold get_state_details; now rewrite Hl|].
  split.
  - intros choices next message.
    assert (Hw : delete_documents_by_id w [thread_id] = w').
    { unfold w', delete_thread.
      destruct (md_source <$> load_all_from_sqlite codebase w "threads" !! thread_id);
        reflexivity. }
    unfold delete_thread.
    destruct (md_source <$> load_all_from_sqlite codebase w "threads" !! thread_id);
      [|discriminate].
    cbn [snd]. rewrite Hw. intros [= <- <- _].
    split; [exact Hc|].
    remember (get_list codebase w' "threads") as l eqn:El.
    destruct l as [|[n t] l].
    + split; [discriminate | tauto].
    + split; [|split; discriminate].
      intros t' [= <-]. cbn [snd]. split.
      * intros ->. apply (Hc n). now left.
      * exists n. now left.
  - intros query mode edit_data. rewrite run_unfold.
    unfold _update_current_state. now rewrite Hl.
Qed.

(** X21. Deleting an id that is not among the chat threads of this
    codebase. The call raises the error of the unbound [thread_name],
    and it raises it after the row was deleted: a document that another
    group stores under the id is gone all the same. When the thread is
    among the codebase's chat threads, the call returns. *)
Theorem delete_of_a_foreign_id (codebase : string) (w : World) (thread_id : string) :
  (forall doc,
     sqlite_db w !! thread_id = Some doc ->
     md_group doc <> codebase +:+ "_threads" ->
     snd (delete_thread codebase w thread_id) = inl (UnboundLocalError "thread_name") /\
     sqlite_db (fst (delete_thread codebase w thread_id)) !! thread_id = None) /\
  (forall doc,
     sqlite_db w !! thread_id = Some doc ->
     md_group doc = codebase +:+ "_threads" ->
     exists choices next,
       snd (delete_thread codebase w thread_id)
       = inr (choices, next, "Deleted thread `" +:+ md_source doc +:+ "`")).
Proof.
  split; intros doc Hd Hg.
  - split; [|rewrite delete_thread_store; apply lookup_delete_eq].
    assert (Hl : load_all_from_sqlite codebase w "threads" !! thread_id = None).
    { apply load_lookup_None. intros d Hd'. simpl. congruence. }
    unfold delete_thread. now rewrite Hl.
  - assert (Hl : load_all_from_sqlite codebase w "threads" !! thread_id = Some doc).
    { apply load_lookup. auto. }
    unfold delete_thread. rewrite Hl. cbn. eauto.
Qed.

Lemma delete_of_a_foreign_id_witness :
  sqlite_db Script.world !! "short"
  = Some (Script.thread_doc (map Wire.to_json [Script.hello; Script.hi_there])) /\
  md_group (Script.thread_doc (map Wire.to_json [Script.hello; Script.hi_there]))
  <> "other" +:+ "_threads" /\
  snd (delete_thread "other" Script.world "short")
  = inl (UnboundLocalError "thread_name") /\
  sqlite_db (fst (delete_thread "other" Script.world "short")) !! "short" = None.
Proof.
  assert (H1 : sqlite_db Script.world !! "short"
               = Some (Script.thread_doc (map Wire.to_json [Script.hello; Script.hi_there])))
    by reflexivity.
  assert (H2 : md_group (Script.thread_doc
                           (map Wire.to_json [Script.hello; Script.hi_there]))
               <> "other" +:+ "_threads") by discriminate.
  split; [exact H1|]. split; [exact H2|].
  exact (proj1 (delete_of_a_foreign_id "other" Script.world "short") _ H1 H2).
Defined.

(** X22. A resolver that raises has changed nothing, the working state
    included, and the run that it ends hands back the world it was
    given. *)
Theorem resolver_failure_changes_nothing {env : Collaborators} (codebase : string)
    (w : World) (query selected_thread mode : string) (edit_data : option EditData)
    (e : exn) :
  fst (_update_current_state codebase w query selected_thread mode edit_data) = Raise e ->
  snd (_update_current_state codebase w query selected_thread mode edit_data) = w /\
  aget_agent_response codebase w query selected_thread mode edit_data
  = {| yields := []; outcome := Some e; world := w |}.
Proof.
  rewrite run_unfold. unfold _update_current_state.
  destruct (load_all_from_sqlite codebase w "threads" !! selected_thread) as [doc|];
    [|intros [= <-]; now split].
  destruct (loads (page_content doc)) as [stored|e0]; [|intros [= <-]; now split].
  destruct (cap_history stored) as [|m convo].
  - destruct (PyStr.is_empty query); discriminate.
  - destruct (handle_mode_ok mode query edit_data (m :: convo)) as (q & c & -> & _).
    cbn. destruct (PyStr.is_empty q); discriminate.
Qed.

Lemma resolver_failure_changes_nothing_witness :
  fst (_update_current_state (env := Script.env) "demo" Script.world
         "Hi" "missing" "retry" None) = Raise (KeyError "source") /\
  snd (_update_current_state (env := Script.env) "demo" Script.world
         "Hi" "missing" "retry" None) = Script.world /\
  aget_agent_response (env := Script.env) "demo" Script.world "Hi" "missing" "retry" None
  = {| yields := []; outcome := Some (KeyError "source"); world := Script.world |}.
Proof.
  assert (H : fst (_update_current_state (env := Script.env) "demo" Script.world
                     "Hi" "missing" "retry" None) = Raise (KeyError "source"))
    by reflexivity.
  split; [exact H|].
  exact (resolver_failure_changes_nothing (env := Script.env) "demo" Script.world
           "Hi" "missing" "retry" None _ H).
Defined.

(** X23. A stored history of at most ten wire messages is kept whole by
    a main-mode turn: after a turn that ends without an exception the
    thread holds all the stored messages followed by the entries of the
    new turn, and the working state was synced with all of them. *)
Theorem main_turn_keeps_short_history {env : Collaborators} (codebase : string)
    (w : World) (query selected_thread : string) (edit_data : option EditData)
    (doc : Document) (h : list Wire.msg) :
  load_all_from_sqlite codebase w "threads" !! selected_thread = Some doc ->
  page_content doc = JsonArray (map Wire.to_json h) ->
  0 < length h <= 10 ->
  outcome (aget_agent_response codebase w query selected_thread "main" edit_data) = None ->
  let w1 := update_state w selected_thread (map Wire.typed h) in
  sqlite_db (world (aget_agent_response codebase w query selected_thread "main" edit_data))
  = <[selected_thread :=
        {| page_content :=
             JsonArray (map Wire.to_json h ++ new_turn w1 query selected_thread);
           md_source := md_source doc;
           md_group := md_group doc |}]> (sqlite_db w).
Proof.
  intros Hl Hp Hlen Hout w1.
  assert (Hh : h <> []) by (intros ->; simpl in Hlen; lia).
  assert (Hw : Wire.last_n 10 h = h).
  { unfold Wire.last_n. replace (length h - 10) with 0 by lia. reflexivity. }
  destruct (run_success codebase w query selected_thread "main" edit_data Hout)
    as (q & view & src & grp & w1' & added & w2 & Er & Ea & Hs & _ & ->).
  rewrite (resolver_main_wire codebase w query selected_thread edit_data doc h Hl Hp Hh),
    Hw in Er.
  injection Er as <- <- <- <- <-. fold w1 in Ea.
  unfold _update_thread_history, new_turn. cbn [world sqlite_db]. rewrite Hs. subst added.
  destruct (PyStr.is_empty query); [now rewrite !app_nil_r|].
  now rewrite <- app_assoc.
Qed.

Lemma main_turn_keeps_short_history_witness :
  load_all_from_sqlite "demo" Script.world "threads" !! "short"
  = Some (Script.thread_doc (map Wire.to_json [Script.hello; Script.hi_there])) /\
  0 < length [Script.hello; Script.hi_there] <= 10 /\
  outcome (aget_agent_response (env := Script.env) "demo" Script.world
             "Hi" "short" "main" None) = None /\
  sqlite_db (world (aget_agent_response (env := Script.env) "demo" Script.world
                      "Hi" "short" "main" None))
  = <["short" :=
        Script.thread_doc
          (map Wire.to_json [Script.hello; Script.hi_there]
           ++ new_turn (env := Script.env)
                (update_state (env := Script.env) Script.world "short"
                   (map Wire.typed [Script.hello; Script.hi_there])) "Hi" "short")]>
      (sqlite_db Script.world).
Proof.
  assert (H1 : load_all_from_sqlite "demo" Script.world "threads" !! "short"
               = Some (Script.thread_doc (map Wire.to_json [Script.hello; Script.hi_there])))
    by reflexivity.
  assert (H2 : 0 < length [Script.hello; Script.hi_there] <= 10) by (simpl; lia).
  assert (H3 : outcome (aget_agent_response (env := Script.env) "demo" Script.world
                          "Hi" "short" "main" None) = None) by reflexivity.
  split; [exact H1|]. split; [exact H2|]. split; [exact H3|].
  exact (main_turn_keeps_short_history (env := Script.env) "demo" Script.world
           "Hi" "short" None _ [Script.hello; Script.hi_there] H1 eq_refl H2 H3).
Defined.
